(** * push.py: the notification dispatcher of wxread

    A shallow embedding of [src/push.py] (class [PushNotification] and the
    module-level function [push]) together with the properties of its
    retry and fallback policy.

    Layout of the development:
    - [PyData]   : Python values the module handles (str as code points,
                   bytes, the value of a parsed JSON body);
    - [Sha256], [Hmac], [Base64] : the three library functions that
                   [generate_dingtalk_sign] composes, written out from
                   FIPS 180-4, RFC 2104 and RFC 4648;
    - [Effects]  : exceptions, the HTTP transport, the clock, the random
                   source and the log as an explicit world with a trace;
    - [Push]     : the senders and the dispatcher, line by line;
    - the theorems. *)

From Stdlib Require Import String Ascii.
From Stdlib Require Import ZArith NArith List Bool Lia PrimFloat.
Import ListNotations.

(* ================================================================== *)
(** ** Python data *)

Module PyData.

(** A Python [str] is a sequence of Unicode code points. *)
Definition pystr := list N.

(** A Python [bytes] object; every element is meant to lie in [0, 256). *)
Definition pybytes := list Z.

(** An ASCII literal of the source, as a [str]. *)
Definition lit (s : string) : pystr :=
  map N_of_ascii (list_ascii_of_string s).

Definition pystr_eqb (a b : pystr) : bool :=
  if list_eq_dec N.eq_dec a b then true else false.

(** The values that [response.json()] can produce, and the values the
    senders return ([None], [True], [False]). *)
#[warnings="-register-all"]
Inductive pyval : Type :=
| PyNone
| PyBool (b : bool)
| PyInt (z : Z)
| PyFloat (f : float)
| PyStr (s : pystr)
| PyList (l : list pyval)
| PyDict (d : list (pystr * pyval)).

(** [v == 0] for a Python value [v] and the int literal [0]: [bool] is a
    subclass of [int] ([False == 0]), and a float compares by value. *)
Definition py_eq_int0 (v : pyval) : bool :=
  match v with
  | PyInt z => Z.eqb z 0
  | PyBool b => negb b
  | PyFloat f => PrimFloat.eqb f PrimFloat.zero
  | _ => false
  end.

(** [d.get(key)] on the association list of a dict: [None] when absent. *)
Fixpoint dict_get (d : list (pystr * pyval)) (key : pystr) : pyval :=
  match d with
  | [] => PyNone
  | (k, v) :: d' => if pystr_eqb k key then v else dict_get d' key
  end.

(** Truthiness of a configuration value that is [None] or a [str]:
    [None] and the empty string are falsy. *)
Definition truthy (v : option pystr) : bool :=
  match v with
  | None => false
  | Some [] => false
  | Some (_ :: _) => true
  end.

(** [str(v)] / [format(v)] for such a value, as used by [str.format] and
    f-strings: [None] renders as the text [None]. *)
Definition py_format (v : option pystr) : pystr :=
  match v with
  | None => lit "None"
  | Some s => s
  end.

(** [str(n)] for a Python int: decimal digits, with a minus sign. *)
Fixpoint uint_digits (u : Decimal.uint) : pystr :=
  match u with
  | Decimal.Nil => []
  | Decimal.D0 u' => 48%N :: uint_digits u'
  | Decimal.D1 u' => 49%N :: uint_digits u'
  | Decimal.D2 u' => 50%N :: uint_digits u'
  | Decimal.D3 u' => 51%N :: uint_digits u'
  | Decimal.D4 u' => 52%N :: uint_digits u'
  | Decimal.D5 u' => 53%N :: uint_digits u'
  | Decimal.D6 u' => 54%N :: uint_digits u'
  | Decimal.D7 u' => 55%N :: uint_digits u'
  | Decimal.D8 u' => 56%N :: uint_digits u'
  | Decimal.D9 u' => 57%N :: uint_digits u'
  end.

Definition str_of_int (z : Z) : pystr :=
  match z with
  | Z0 => [48%N]
  | Zpos p => uint_digits (Pos.to_uint p)
  | Zneg p => 45%N :: uint_digits (Pos.to_uint p)
  end.

(** [s.encode('utf-8')] on one code point.  The codec is strict: a
    surrogate (U+D800..U+DFFF) is refused with [UnicodeEncodeError];
    [None] stands for that refusal.  Numbers above U+10FFFF are not code
    points and are refused as well. *)
Definition utf8_of_codepoint (c : N) : option pybytes :=
  let z := Z.of_N c in
  if (z <? 128)%Z then Some [z]
  else if (z <? 2048)%Z then
    Some [Z.lor 192 (Z.shiftr z 6); Z.lor 128 (Z.land z 63)]
  else if (z <? 65536)%Z then
    if ((55296 <=? z) && (z <=? 57343))%Z%bool then None
    else Some [Z.lor 224 (Z.shiftr z 12);
               Z.lor 128 (Z.land (Z.shiftr z 6) 63);
               Z.lor 128 (Z.land z 63)]
  else if (z <? 1114112)%Z then
    Some [Z.lor 240 (Z.shiftr z 18);
          Z.lor 128 (Z.land (Z.shiftr z 12) 63);
          Z.lor 128 (Z.land (Z.shiftr z 6) 63);
          Z.lor 128 (Z.land z 63)]
  else None.

Fixpoint encode_utf8 (s : pystr) : option pybytes :=
  match s with
  | [] => Some []
  | c :: s' =>
      match utf8_of_codepoint c, encode_utf8 s' with
      | Some b, Some bs => Some (b ++ bs)
      | _, _ => None
      end
  end.

(** [b.decode('utf-8')] restricted to ASCII bytes, where it maps every
    byte to the code point of the same number.  (The only bytes decoded in
    push.py are the output of [base64.b64encode], which is ASCII.) *)
Definition decode_ascii (b : pybytes) : pystr := map Z.to_N b.

End PyData.
Export PyData.

(* ================================================================== *)
(** ** SHA-256 (FIPS 180-4), as [hashlib.sha256] *)

Module Sha256.
Local Open Scope Z_scope.

Definition two32 : Z := 4294967296.

Definition add32 (x y : Z) : Z := (x + y) mod two32.

Definition rotr (n x : Z) : Z :=
  Z.lor (Z.shiftr x n) ((Z.shiftl x (32 - n)) mod two32).

Definition not32 (x : Z) : Z := Z.lxor x 4294967295.

Definition Ch (x y z : Z) : Z :=
  Z.lxor (Z.land x y) (Z.land (not32 x) z).

Definition Maj (x y z : Z) : Z :=
  Z.lxor (Z.lxor (Z.land x y) (Z.land x z)) (Z.land y z).

Definition bsig0 (x : Z) : Z :=
  Z.lxor (Z.lxor (rotr 2 x) (rotr 13 x)) (rotr 22 x).

Definition bsig1 (x : Z) : Z :=
  Z.lxor (Z.lxor (rotr 6 x) (rotr 11 x)) (rotr 25 x).

Definition ssig0 (x : Z) : Z :=
  Z.lxor (Z.lxor (rotr 7 x) (rotr 18 x)) (Z.shiftr x 3).

Definition ssig1 (x : Z) : Z :=
  Z.lxor (Z.lxor (rotr 17 x) (rotr 19 x)) (Z.shiftr x 10).

(** The round constants: the first 32 bits of the fractional parts of the
    cube roots of the first 64 primes. *)
Definition K256 : list Z :=
  [1116352408; 1899447441; 3049323471; 3921009573;
   961987163; 1508970993; 2453635748; 2870763221;
   3624381080; 310598401; 607225278; 1426881987;
   1925078388; 2162078206; 2614888103; 3248222580;
   3835390401; 4022224774; 264347078; 604807628;
   770255983; 1249150122; 1555081692; 1996064986;
   2554220882; 2821834349; 2952996808; 3210313671;
   3336571891; 3584528711; 113926993; 338241895;
   666307205; 773529912; 1294757372; 1396182291;
   1695183700; 1986661051; 2177026350; 2456956037;
   2730485921; 2820302411; 3259730800; 3345764771;
   3516065817; 3600352804; 4094571909; 275423344;
   430227734; 506948616; 659060556; 883997877;
   958139571; 1322822218; 1537002063; 1747873779;
   1955562222; 2024104815; 2227730452; 2361852424;
   2428436474; 2756734187; 3204031479; 3329325298].

(** The initial hash value: square roots of the first 8 primes. *)
Definition H0 : list Z :=
  [1779033703; 3144134277; 1013904242; 2773480762;
   1359893119; 2600822924; 528734635; 1541459225].

(** Big-endian packing. *)
Fixpoint be_word (bs : list Z) (acc : Z) : Z :=
  match bs with
  | [] => acc
  | b :: bs' => be_word bs' (Z.lor (Z.shiftl acc 8) b)
  end.

Fixpoint be_bytes (n : nat) (x : Z) : list Z :=
  match n with
  | O => []
  | S n' => be_bytes n' (Z.shiftr x 8) ++ [Z.land x 255]
  end.

(** The sixteen words of a 64-byte block. *)
Fixpoint block_words (n : nat) (bs : list Z) : list Z :=
  match n with
  | O => []
  | S n' => be_word (firstn 4 bs) 0 :: block_words n' (skipn 4 bs)
  end.

(** Message schedule: [w] holds W(t-16) .. W(t-1); each step emits the
    oldest word and appends W(t). *)
Definition next_w (w : list Z) : Z :=
  add32 (add32 (add32 (ssig1 (nth 14 w 0)) (nth 9 w 0))
               (ssig0 (nth 1 w 0)))
        (nth 0 w 0).

Fixpoint schedule (n : nat) (w : list Z) : list Z :=
  match n with
  | O => []
  | S n' => nth 0 w 0 :: schedule n' (tl w ++ [next_w w])
  end.

Record regs : Type := mkRegs
  { ra : Z; rb : Z; rc : Z; rd : Z; re : Z; rf : Z; rg : Z; rh : Z }.

Definition round (s : regs) (kw : Z * Z) : regs :=
  let (k, w) := kw in
  let t1 := add32 (add32 (add32 (add32 (rh s) (bsig1 (re s)))
                                (Ch (re s) (rf s) (rg s))) k) w in
  let t2 := add32 (bsig0 (ra s)) (Maj (ra s) (rb s) (rc s)) in
  mkRegs (add32 t1 t2) (ra s) (rb s) (rc s)
         (add32 (rd s) t1) (re s) (rf s) (rg s).

Definition regs_of (h : list Z) : regs :=
  mkRegs (nth 0 h 0) (nth 1 h 0) (nth 2 h 0) (nth 3 h 0)
         (nth 4 h 0) (nth 5 h 0) (nth 6 h 0) (nth 7 h 0).

Definition list_of (s : regs) : list Z :=
  [ra s; rb s; rc s; rd s; re s; rf s; rg s; rh s].

Definition compress (h : list Z) (block : list Z) : list Z :=
  let w := schedule 64 (block_words 16 block) in
  let s := fold_left round (combine K256 w) (regs_of h) in
  map (fun p => add32 (fst p) (snd p)) (combine h (list_of s)).

(** Padding: a 1 bit, zeros up to 56 mod 64, the bit length on 64 bits. *)
Definition pad (msg : list Z) : list Z :=
  let len := Z.of_nat (length msg) in
  msg ++ [128] ++ repeat 0 (Z.to_nat ((55 - len) mod 64))
      ++ be_bytes 8 (8 * len).

Fixpoint blocks (n : nat) (h : list Z) (bs : list Z) : list Z :=
  match n with
  | O => h
  | S n' => blocks n' (compress h (firstn 64 bs)) (skipn 64 bs)
  end.

Definition sha256 (msg : pybytes) : pybytes :=
  let p := pad msg in
  flat_map (be_bytes 4) (blocks (length p / 64) H0 p).

End Sha256.

(* ================================================================== *)
(** ** HMAC (RFC 2104) over SHA-256, as [hmac.new(key, msg, sha256).digest()] *)

Module Hmac.
Local Open Scope Z_scope.

Definition block_size : nat := 64.

(** A key longer than a block is hashed first; the key is then filled
    with zeros to the block size. *)
Definition block_key (key : pybytes) : pybytes :=
  let k := if (block_size <? length key)%nat then Sha256.sha256 key else key in
  k ++ repeat 0 (block_size - length k).

Definition hmac_sha256 (key msg : pybytes) : pybytes :=
  let k := block_key key in
  let inner := Sha256.sha256 (map (Z.lxor 54) k ++ msg) in
  Sha256.sha256 (map (Z.lxor 92) k ++ inner).

End Hmac.

(* ================================================================== *)
(** ** Base64 (RFC 4648, standard alphabet), as [base64.b64encode] *)

Module Base64.
Local Open Scope Z_scope.

Definition b64char (v : Z) : Z :=
  if v <? 26 then 65 + v
  else if v <? 52 then 97 + (v - 26)
  else if v <? 62 then 48 + (v - 52)
  else if v =? 62 then 43
  else 47.

Fixpoint b64encode (l : pybytes) : pybytes :=
  match l with
  | [] => []
  | [a] =>
      [b64char (Z.shiftr a 2);
       b64char (Z.shiftl (Z.land a 3) 4); 61; 61]
  | [a; b] =>
      [b64char (Z.shiftr a 2);
       b64char (Z.lor (Z.shiftl (Z.land a 3) 4) (Z.shiftr b 4));
       b64char (Z.shiftl (Z.land b 15) 2); 61]
  | a :: b :: c :: rest =>
      b64char (Z.shiftr a 2)
      :: b64char (Z.lor (Z.shiftl (Z.land a 3) 4) (Z.shiftr b 4))
      :: b64char (Z.lor (Z.shiftl (Z.land b 15) 2) (Z.shiftr c 6))
      :: b64char (Z.land c 63)
      :: b64encode rest
  end.

End Base64.

(* ================================================================== *)
(** ** Effects: exceptions, transport, clock, random source, log *)

Module Effects.

(** The exception classes that matter to the handlers of push.py.  All of
    them derive from [Exception]; [RequestException] stands for
    [requests.exceptions.RequestException] and its subclasses. *)
Inductive requests_error : Type :=
| ConnectionError
| ReadTimeout
| HTTPError (status : Z)
| TooManyRedirects
| InvalidURL.

Inductive exn : Type :=
| RequestException (k : requests_error)
| ValueError (msg : pystr)
| AttributeError
| TypeError
| UnicodeEncodeError
| JSONDecodeError
| OSError
| RuntimeError.

(** [isinstance(e, requests.exceptions.RequestException)] *)
Definition is_RequestException (e : exn) : bool :=
  match e with
  | RequestException _ => true
  | _ => false
  end.

(** [isinstance(e, Exception)] *)
Definition is_Exception (e : exn) : bool := true.

Inductive outcome (A : Type) : Type :=
| Ok (a : A)
| Raise (e : exn).
Arguments Ok {A} a.
Arguments Raise {A} e.

(** *** Requests and responses *)

Inductive http_verb : Type := GET | POST.

Inductive req_body : Type :=
| NoBody
| Data (v : pyval)      (* data=json.dumps(v).encode('utf-8') *)
| Json (v : pyval).     (* json=v *)

Record request : Type := mkRequest
  { verb : http_verb;
    url : pystr;
    body : req_body;
    headers : list (pystr * pystr);
    (* [proxies=] when given: the values of http_proxy and https_proxy *)
    proxies : option (option pystr * option pystr);
    timeout : Z }.

(** A response: its status line, its text, and what [response.json()]
    makes of the text ([None] when it is not JSON). *)
Record response : Type := mkResponse
  { status_code : Z;
    text : pystr;
    json_body : option pyval }.

Inductive http_result : Type :=
| Resp (r : response)
| Throw (e : exn).

(** *** The log *)

Inductive level : Type := INFO | ERROR.

(** One constructor per logging call of push.py, with its arguments. *)
Inductive log_msg : Type :=
| PushPlusResponse (t : pystr)        (* line 41 *)
| PushPlusFailed (e : exn)            (* line 44 *)
| RetryIn (secs : Z)                  (* lines 47, 87 *)
| TelegramResponse (t : pystr)        (* line 58 *)
| TelegramProxyFailed (e : exn)       (* line 62 *)
| TelegramFailed (e : exn)            (* line 69 *)
| WxPusherResponse (t : pystr)        (* line 81 *)
| WxPusherFailed (e : exn)            (* line 84 *)
| DingTalkNoWebhook                   (* line 93 *)
| DingTalkSent                        (* line 126 *)
| DingTalkRejected (t : pystr)        (* line 129 *)
| DingTalkException (e : exn)         (* line 132 *)
| DingTalkRetryIn (secs : Z).         (* line 137 *)

(** *** The world *)

Inductive event : Type :=
| EvHttp (r : request)
| EvSleep (secs : Z)
| EvClock
| EvLog (lvl : level) (m : log_msg).

(** What the outside answers: the [n]-th HTTP call, the [n]-th draw of the
    random source, the [n]-th reading of the clock.  The clock is read as
    [round(time.time() * 1000)], an integer number of milliseconds. *)
Record env : Type := mkEnv
  { http : nat -> request -> http_result;
    draw : nat -> Z;
    clock_ms : nat -> Z }.

(** How many calls were made so far, and everything observable that
    happened, oldest first. *)
Record world : Type := mkWorld
  { n_http : nat;
    n_rand : nat;
    n_clock : nat;
    trace : list event }.

Definition world0 : world := mkWorld 0 0 0 [].

Definition M (A : Type) : Type := world -> outcome A * world.

Definition ret {A} (a : A) : M A := fun w => (Ok a, w).

Definition raise {A} (e : exn) : M A := fun w => (Raise e, w).

Definition bind {A B} (c : M A) (k : A -> M B) : M B :=
  fun w =>
    match c w with
    | (Ok a, w') => k a w'
    | (Raise e, w') => (Raise e, w')
    end.

(** [try: body  except <class> as e: handler e] *)
Definition try_except {A} (body : M A) (catches : exn -> bool)
           (handler : exn -> M A) : M A :=
  fun w =>
    match body w with
    | (Ok a, w') => (Ok a, w')
    | (Raise e, w') => if catches e then handler e w' else (Raise e, w')
    end.

(** A pure computation that may raise. *)
Definition lift {A} (o : outcome A) : M A := fun w => (o, w).

Definition emit (e : event) : M unit :=
  fun w => (Ok tt, mkWorld (n_http w) (n_rand w) (n_clock w) (trace w ++ [e])).

Definition log (lvl : level) (m : log_msg) : M unit := emit (EvLog lvl m).

Section WithEnv.
Variable E : env.

(** [requests.post] / [requests.get]: one HTTP call. *)
Definition requests_send (r : request) : M response :=
  fun w =>
    let w' := mkWorld (S (n_http w)) (n_rand w) (n_clock w)
                      (trace w ++ [EvHttp r]) in
    match http E (n_http w) r with
    | Resp resp => (Ok resp, w')
    | Throw e => (Raise e, w')
    end.

(** [random.randint(a, b)]: an integer N with a <= N <= b. *)
Definition randint (a b : Z) : M Z :=
  fun w =>
    (Ok (a + (draw E (n_rand w)) mod (b - a + 1))%Z,
     mkWorld (n_http w) (S (n_rand w)) (n_clock w) (trace w)).

(** [time.sleep(secs)] *)
Definition sleep (secs : Z) : M unit := emit (EvSleep secs).

(** [round(time.time() * 1000)] *)
Definition time_ms : M Z :=
  fun w =>
    (Ok (clock_ms E (n_clock w)),
     mkWorld (n_http w) (n_rand w) (S (n_clock w)) (trace w ++ [EvClock])).

End WithEnv.

(** [response.raise_for_status()]: [HTTPError] for a 4xx or 5xx status,
    nothing otherwise. *)
Definition is_error_status (s : Z) : bool :=
  ((400 <=? s) && (s <? 600))%Z.

Definition raise_for_status (r : response) : M unit :=
  if is_error_status (status_code r)
  then raise (RequestException (HTTPError (status_code r)))
  else ret tt.

(** [response.json()] *)
Definition response_json (r : response) : M pyval :=
  match json_body r with
  | Some v => ret v
  | None => raise JSONDecodeError
  end.

(** [v.get(key)]: only a dict has the method. *)
Definition py_get (v : pyval) (key : pystr) : M pyval :=
  match v with
  | PyDict d => ret (dict_get d key)
  | _ => raise AttributeError
  end.

(** *** Loops *)

(** How the body of a [for] loop ends: it falls through to the next
    iteration, executes [break], or executes [return v]. *)
Inductive ctl : Type :=
| Next
| Break
| Return (v : pyval).

(** [for i in <list>: body i]; the result is [Some v] when the body
    returned [v] out of the enclosing function. *)
Fixpoint for_in (l : list nat) (body : nat -> M ctl) : M (option pyval) :=
  match l with
  | [] => ret None
  | i :: l' =>
      bind (body i) (fun c =>
        match c with
        | Next => for_in l' body
        | Break => ret None
        | Return v => ret (Some v)
        end)
  end.

(** [range(n)] *)
Definition range (n : nat) : list nat := seq 0 n.

End Effects.
Export Effects.

Declare Scope py_scope.
Delimit Scope py_scope with py.
Notation "x <- c ;; k" := (bind c (fun x => k))
  (at level 61, c at next level, right associativity) : py_scope.
Notation "c ;; k" := (bind c (fun _ => k))
  (at level 61, right associativity) : py_scope.

(* ================================================================== *)
(** ** push.py *)

Module Push.
Local Open Scope py_scope.

(** [from config import ...]: each value is a [str], or [None] when it is
    not configured.  The two proxy settings are what [os.getenv] returns. *)
Record config : Type := mkConfig
  { PUSHPLUS_TOKEN : option pystr;
    TELEGRAM_CHAT_ID : option pystr;
    TELEGRAM_BOT_TOKEN : option pystr;
    WXPUSHER_SPT : option pystr;
    DINGTALK_WEBHOOK : option pystr;
    DINGTALK_SECRET : option pystr;
    http_proxy : option pystr;
    https_proxy : option pystr }.

Definition py_of_opt (v : option pystr) : pyval :=
  match v with
  | None => PyNone
  | Some s => PyStr s
  end.

(** The attributes set by [PushNotification.__init__]. *)
Definition pushplus_url : pystr := lit "https://www.pushplus.plus/send".

(** ["https://api.telegram.org/bot{}/sendMessage".format(a)] *)
Definition telegram_url (a : option pystr) : pystr :=
  lit "https://api.telegram.org/bot" ++ py_format a ++ lit "/sendMessage".

Definition self_headers : list (pystr * pystr) :=
  [(lit "Content-Type", lit "application/json")].

(** ["https://wxpusher.zjiecode.com/api/send/message/{}/{}".format(a, b)] *)
Definition wxpusher_simple_url (a : option pystr) (b : pystr) : pystr :=
  lit "https://wxpusher.zjiecode.com/api/send/message/"
      ++ py_format a ++ lit "/" ++ b.

(** The non-ASCII literals of the source, as code points. *)
Definition pushplus_title : pystr :=
  [24494; 20449; 38405; 35835; 25512; 36865; 46; 46; 46]%N.

Definition dingtalk_title : pystr :=
  [24494; 20449; 38405; 35835; 36890; 30693]%N.

Definition dingtalk_heading : pystr :=
  [35; 35; 35; 32; 24494; 20449; 38405; 35835; 20219; 21153; 23436; 25104;
   10]%N.

Definition invalid_channel_msg : pystr :=
  [10060; 32; 26080; 25928; 30340; 36890; 30693; 28192; 36947; 65292; 35831;
   36873; 25321; 32]%N
  ++ lit "'pushplus'" ++ [12289%N] ++ lit "'telegram'" ++ [12289%N]
  ++ lit "'wxpusher' " ++ [25110%N] ++ lit " 'dingtalk'".

(** *** [generate_dingtalk_sign] (lines 142-155) *)

Definition generate_dingtalk_sign (timestamp : pystr)
           (secret : option pystr) : outcome pystr :=
  let string_to_sign := timestamp ++ [10%N] ++ py_format secret in
  match secret with
  | None => Raise AttributeError              (* None has no .encode *)
  | Some s =>
      match encode_utf8 s with
      | None => Raise UnicodeEncodeError
      | Some key =>
          match encode_utf8 string_to_sign with
          | None => Raise UnicodeEncodeError
          | Some msg =>
              let hmac_code := Hmac.hmac_sha256 key msg in
              Ok (decode_ascii (Base64.b64encode hmac_code))
          end
      end
  end.

Section Senders.
Variable E : env.
Variable cfg : config.

(** *** [push_pushplus] (lines 25-48) *)

Definition pushplus_request (content : pystr) (token : option pystr)
  : request :=
  mkRequest POST pushplus_url
    (Data (PyDict [(lit "token", py_of_opt token);
                   (lit "title", PyStr pushplus_title);
                   (lit "content", PyStr content)]))
    self_headers None 10.

Definition push_pushplus (content : pystr) (token : option pystr)
  : M pyval :=
  let attempts := 5%nat in
  for_in (range attempts) (fun attempt =>
    try_except
      (response <- requests_send E (pushplus_request content token) ;;
       raise_for_status response ;;
       log INFO (PushPlusResponse (text response)) ;;
       ret Break)
      is_RequestException
      (fun e =>
         log ERROR (PushPlusFailed e) ;;
         (if (attempt <? attempts - 1)%nat then
            sleep_time <- randint E 180 360 ;;
            log INFO (RetryIn sleep_time) ;;
            sleep sleep_time
          else ret tt) ;;
         ret Next)) ;;
  ret PyNone.

(** *** [push_telegram] (lines 50-70) *)

Definition telegram_payload (content : pystr) (chat_id : option pystr)
  : pyval :=
  PyDict [(lit "chat_id", py_of_opt chat_id); (lit "text", PyStr content)].

Definition telegram_proxied (content : pystr)
           (bot_token chat_id : option pystr) : request :=
  mkRequest POST (telegram_url bot_token)
    (Json (telegram_payload content chat_id)) []
    (Some (http_proxy cfg, https_proxy cfg)) 30.

Definition telegram_direct (content : pystr)
           (bot_token chat_id : option pystr) : request :=
  mkRequest POST (telegram_url bot_token)
    (Json (telegram_payload content chat_id)) [] None 30.

Definition push_telegram (content : pystr)
           (bot_token chat_id : option pystr) : M pyval :=
  try_except
    (response <- requests_send E (telegram_proxied content bot_token chat_id) ;;
     log INFO (TelegramResponse (text response)) ;;
     raise_for_status response ;;
     ret (PyBool true))
    is_Exception
    (fun e =>
       log ERROR (TelegramProxyFailed e) ;;
       try_except
         (response <-
            requests_send E (telegram_direct content bot_token chat_id) ;;
          raise_for_status response ;;
          ret (PyBool true))
         is_Exception
         (fun e' =>
            log ERROR (TelegramFailed e') ;;
            ret (PyBool false))).

(** *** [push_wxpusher] (lines 72-88) *)

Definition wxpusher_request (content : pystr) (spt : option pystr)
  : request :=
  mkRequest GET (wxpusher_simple_url spt content) NoBody [] None 10.

Definition push_wxpusher (content : pystr) (spt : option pystr)
  : M pyval :=
  let attempts := 5%nat in
  let url := wxpusher_request content spt in
  for_in (range attempts) (fun attempt =>
    try_except
      (response <- requests_send E url ;;
       raise_for_status response ;;
       log INFO (WxPusherResponse (text response)) ;;
       ret Break)
      is_RequestException
      (fun e =>
         log ERROR (WxPusherFailed e) ;;
         (if (attempt <? attempts - 1)%nat then
            sleep_time <- randint E 180 360 ;;
            log INFO (RetryIn sleep_time) ;;
            sleep sleep_time
          else ret tt) ;;
         ret Next)) ;;
  ret PyNone.

(** *** [push_dingtalk] (lines 90-140) *)

Definition dingtalk_payload (content : pystr) : pyval :=
  PyDict [(lit "msgtype", PyStr (lit "markdown"));
          (lit "markdown",
           PyDict [(lit "title", PyStr dingtalk_title);
                   (lit "text", PyStr (dingtalk_heading ++ content))])].

Definition dingtalk_request (timestamp sign content : pystr) : request :=
  mkRequest POST
    (py_format (DINGTALK_WEBHOOK cfg) ++ lit "&timestamp=" ++ timestamp
       ++ lit "&sign=" ++ sign)
    (Json (dingtalk_payload content)) self_headers None 15.

Definition push_dingtalk (content : pystr) : M pyval :=
  if negb (truthy (DINGTALK_WEBHOOK cfg)) then
    log ERROR DingTalkNoWebhook ;;
    ret (PyBool false)
  else
    let attempts := 3%nat in
    r <- for_in (range attempts) (fun attempt =>
      c <- try_except
             (now <- time_ms E ;;
              let timestamp := str_of_int now in
              let secret := DINGTALK_SECRET cfg in
              sign <- lift (generate_dingtalk_sign timestamp secret) ;;
              response <-
                requests_send E (dingtalk_request timestamp sign content) ;;
              raise_for_status response ;;
              j <- response_json response ;;
              errcode <- py_get j (lit "errcode") ;;
              if py_eq_int0 errcode then
                log INFO DingTalkSent ;;
                ret (Return (PyBool true))
              else
                log ERROR (DingTalkRejected (text response)) ;;
                ret Next)
             is_Exception
             (fun e =>
                log ERROR (DingTalkException e) ;;
                ret Next) ;;
      match c with
      | Return v => ret (Return v)
      | _ =>
          (if (attempt <? attempts - 1)%nat then
             wait_time <- randint E 2 5 ;;
             log INFO (DingTalkRetryIn wait_time) ;;
             sleep wait_time
           else ret tt) ;;
          ret Next
      end) ;;
    match r with
    | Some v => ret v
    | None => ret (PyBool false)
    end.

(** *** [push] (lines 161-177) *)

Definition push (content method : pystr) : M pyval :=
  (* notifier = PushNotification(): reads the two proxy settings only *)
  if pystr_eqb method (lit "pushplus") then
    let token := PUSHPLUS_TOKEN cfg in
    push_pushplus content token
  else if pystr_eqb method (lit "telegram") then
    let bot_token := TELEGRAM_BOT_TOKEN cfg in
    let chat_id := TELEGRAM_CHAT_ID cfg in
    push_telegram content bot_token chat_id
  else if pystr_eqb method (lit "wxpusher") then
    push_wxpusher content (WXPUSHER_SPT cfg)
  else if pystr_eqb method (lit "dingtalk") then
    push_dingtalk content
  else
    raise (ValueError invalid_channel_msg).

End Senders.

End Push.
Export Push.

(* ================================================================== *)
(** ** Observations on a trace *)

Module Observe.

(** The HTTP calls of a trace, in order. *)
Fixpoint http_requests (t : list event) : list request :=
  match t with
  | [] => []
  | EvHttp r :: t' => r :: http_requests t'
  | _ :: t' => http_requests t'
  end.

(** The sleeps of a trace, in order. *)
Fixpoint sleeps (t : list event) : list Z :=
  match t with
  | [] => []
  | EvSleep s :: t' => s :: sleeps t'
  | _ :: t' => sleeps t'
  end.

(** The input/output skeleton of a trace: the log lines are dropped, and
    an HTTP call is kept without its request. *)
Inductive io : Type :=
| IoHttp
| IoSleep (secs : Z)
| IoClock.

Fixpoint io_of (t : list event) : list io :=
  match t with
  | [] => []
  | EvHttp _ :: t' => IoHttp :: io_of t'
  | EvSleep s :: t' => IoSleep s :: io_of t'
  | EvClock :: t' => IoClock :: io_of t'
  | EvLog _ _ :: t' => io_of t'
  end.

(** An HTTP attempt succeeds when the call returns a response and
    [raise_for_status] accepts it; it fails with a requests exception when
    the call raises one or [raise_for_status] raises [HTTPError]. *)
Definition attempt_succeeds (h : http_result) : bool :=
  match h with
  | Resp r => negb (is_error_status (status_code r))
  | Throw _ => false
  end.

Definition attempt_fails (h : http_result) : bool :=
  match h with
  | Resp r => is_error_status (status_code r)
  | Throw e => is_RequestException e
  end.

(** The exception a failed attempt hands to the handler. *)
Definition failure_of (h : http_result) : exn :=
  match h with
  | Resp r => RequestException (HTTPError (status_code r))
  | Throw e => e
  end.

End Observe.
Export Observe.

(* ================================================================== *)
(** ** Validation of the hash functions on published test vectors *)

Module TestVectors.
Local Open Scope Z_scope.

Definition ascii_bytes (s : string) : pybytes := map Z.of_N (lit s).

(** FIPS 180-4 example: SHA-256 of the three bytes "abc". *)
Example sha256_abc :
  Sha256.sha256 (ascii_bytes "abc") =
  [186; 120; 22; 191; 143; 1; 207; 234; 65; 65; 64; 222; 93; 174; 34; 35;
   176; 3; 97; 163; 150; 23; 122; 156; 180; 16; 255; 97; 242; 0; 21; 173].
Proof. vm_compute. reflexivity. Qed.

(** SHA-256 of the empty message. *)
Example sha256_empty :
  Sha256.sha256 [] =
  [227; 176; 196; 66; 152; 252; 28; 20; 154; 251; 244; 200; 153; 111; 185;
   36; 39; 174; 65; 228; 100; 155; 147; 76; 164; 149; 153; 27; 120; 82;
   184; 85].
Proof. vm_compute. reflexivity. Qed.

(** RFC 4231, test case 2. *)
Example hmac_rfc4231_case2 :
  Hmac.hmac_sha256 (ascii_bytes "Jefe")
                   (ascii_bytes "what do ya want for nothing?") =
  [91; 220; 193; 70; 191; 96; 117; 78; 106; 4; 36; 38; 8; 149; 117; 199;
   90; 0; 63; 8; 157; 39; 57; 131; 157; 236; 88; 185; 100; 236; 56; 67].
Proof. vm_compute. reflexivity. Qed.

(** RFC 4231, test case 6: a key longer than the block is hashed first. *)
Example hmac_rfc4231_case6 :
  Hmac.hmac_sha256 (repeat 170 131)
    (ascii_bytes "Test Using Larger Than Block-Size Key - Hash Key First") =
  [96; 228; 49; 89; 30; 224; 182; 127; 13; 138; 38; 170; 203; 245; 183;
   127; 142; 11; 198; 33; 55; 40; 197; 20; 5; 70; 4; 15; 14; 227; 127; 84].
Proof. vm_compute. reflexivity. Qed.

(** RFC 4648, section 10. *)
Example b64_foobar :
  map (fun s => decode_ascii (Base64.b64encode (ascii_bytes s)))
      ["f"; "fo"; "foo"; "foob"; "fooba"; "foobar"]%string =
  map lit ["Zg=="; "Zm8="; "Zm9v"; "Zm9vYg=="; "Zm9vYmE="; "Zm9vYmFy"]%string.
Proof. vm_compute. reflexivity. Qed.

(** Strict UTF-8: U+5FAE takes three bytes, a lone surrogate is refused. *)
Example utf8_examples :
  encode_utf8 [24494%N] = Some [229; 190; 174] /\
  encode_utf8 [128512%N] = Some [240; 159; 152; 128] /\
  encode_utf8 [56448%N] = None.
Proof. vm_compute. repeat split. Qed.

Example str_of_int_examples :
  str_of_int 1700000000000 = lit "1700000000000" /\
  str_of_int 0 = lit "0" /\ str_of_int (-12) = lit "-12".
Proof. vm_compute. repeat split. Qed.

End TestVectors.

(* ================================================================== *)
(** ** The signature helper *)

Section Signature.

(** C2. For every timestamp and secret, [generate_dingtalk_sign] returns
    the base64 text of HMAC-SHA256 keyed with the UTF-8 bytes of the
    secret, over the UTF-8 bytes of the timestamp, a line feed and the
    secret.  It is a function of its two arguments alone, and on
    timestamp 1700000000000 with secret testsecret it yields the value
    obtained from an independent HMAC-SHA256 and base64 computation. *)
Theorem generate_dingtalk_sign_hmac_base64
        (timestamp secret : pystr) (key msg : pybytes)
        (Hkey : encode_utf8 secret = Some key)
        (Hmsg : encode_utf8 (timestamp ++ [10%N] ++ secret) = Some msg) :
  generate_dingtalk_sign timestamp (Some secret) =
    Ok (decode_ascii (Base64.b64encode (Hmac.hmac_sha256 key msg)))
  /\ (forall timestamp' secret',
         timestamp' = timestamp -> secret' = secret ->
         generate_dingtalk_sign timestamp' (Some secret') =
         generate_dingtalk_sign timestamp (Some secret))
  /\ generate_dingtalk_sign (lit "1700000000000") (Some (lit "testsecret")) =
       Ok (lit "d043yCasNZ+KC1N0lrVg+Aan0gEIKPvRfzRqMlUUwzk=").
Proof.
  split; [| split].
  - unfold generate_dingtalk_sign. simpl py_format.
    rewrite Hkey, Hmsg. reflexivity.
  - intros timestamp' secret' -> ->. reflexivity.
  - vm_compute. reflexivity.
Qed.

Lemma generate_dingtalk_sign_hmac_base64_witness :
  generate_dingtalk_sign (lit "1700000000000") (Some (lit "testsecret")) =
    Ok (decode_ascii
          (Base64.b64encode
             (Hmac.hmac_sha256
                (TestVectors.ascii_bytes "testsecret")
                (TestVectors.ascii_bytes "1700000000000"
                   ++ [10%Z] ++ TestVectors.ascii_bytes "testsecret")))).
Proof.
  apply (generate_dingtalk_sign_hmac_base64
           (lit "1700000000000") (lit "testsecret")
           (TestVectors.ascii_bytes "testsecret")
           (TestVectors.ascii_bytes "1700000000000"
              ++ [10%Z] ++ TestVectors.ascii_bytes "testsecret"));
    vm_compute; reflexivity.
Defined.

End Signature.

(* ================================================================== *)
(** ** Running the monad *)

(** Unfolds the primitives so that a sender can be run symbolically. *)
Ltac run_py :=
  unfold try_except, bind, ret, raise, lift, log, sleep, emit,
         requests_send, randint, time_ms, raise_for_status,
         response_json, py_get in *;
  simpl in *.

Lemma http_requests_app (t u : list event) :
  http_requests (t ++ u) = http_requests t ++ http_requests u.
Proof.
  induction t as [| e t IH]; simpl; [reflexivity |].
  destruct e; simpl; rewrite IH; reflexivity.
Qed.

Lemma sleeps_app (t u : list event) :
  sleeps (t ++ u) = sleeps t ++ sleeps u.
Proof.
  induction t as [| e t IH]; simpl; [reflexivity |].
  destruct e; simpl; rewrite IH; reflexivity.
Qed.

Lemma io_of_app (t u : list event) :
  io_of (t ++ u) = io_of t ++ io_of u.
Proof.
  induction t as [| e t IH]; simpl; [reflexivity |].
  destruct e; simpl; rewrite IH; reflexivity.
Qed.

(** [random.randint(a, b)] stays within its two bounds, both included. *)
Lemma randint_bounds (a b r : Z) :
  (a <= b)%Z -> (a <= a + r mod (b - a + 1) <= b)%Z.
Proof.
  intros Hab.
  assert (0 <= r mod (b - a + 1) < b - a + 1)%Z
    by (apply Z.mod_pos_bound; lia).
  lia.
Qed.

(* ================================================================== *)
(** ** The dispatcher *)

Section Dispatcher.
Variable E : env.
Variable cfg : config.

Lemma pystr_eqb_neq [a b : pystr] : a <> b -> pystr_eqb a b = false.
Proof.
  intros Hab. unfold pystr_eqb.
  destruct (list_eq_dec N.eq_dec a b); [contradiction | reflexivity].
Qed.

(** C1. [push] hands each of the four channel names to its own sender,
    and for any other method it raises [ValueError] at once: the world is
    left as it was, so no HTTP call, no sleep and no log line happened. *)
Theorem push_dispatch (content : pystr) (w : world) :
  push E cfg content (lit "pushplus") w =
    push_pushplus E content (PUSHPLUS_TOKEN cfg) w
  /\ push E cfg content (lit "telegram") w =
       push_telegram E cfg content (TELEGRAM_BOT_TOKEN cfg)
                     (TELEGRAM_CHAT_ID cfg) w
  /\ push E cfg content (lit "wxpusher") w =
       push_wxpusher E content (WXPUSHER_SPT cfg) w
  /\ push E cfg content (lit "dingtalk") w = push_dingtalk E cfg content w
  /\ forall method : pystr,
       method <> lit "pushplus" -> method <> lit "telegram" ->
       method <> lit "wxpusher" -> method <> lit "dingtalk" ->
       push E cfg content method w =
         (Raise (ValueError invalid_channel_msg), w).
Proof.
  repeat split; try reflexivity.
  intros method H1 H2 H3 H4. unfold push.
  rewrite (pystr_eqb_neq H1), (pystr_eqb_neq H2),
          (pystr_eqb_neq H3), (pystr_eqb_neq H4).
  reflexivity.
Qed.

End Dispatcher.

(** An unknown channel at a concrete input. *)
Lemma push_dispatch_witness :
  push (mkEnv (fun _ _ => Throw OSError) (fun _ => 0%Z) (fun _ => 0%Z))
       (mkConfig None None None None None None None None)
       (lit "hello") (lit "email") world0 =
    (Raise (ValueError invalid_channel_msg), world0).
Proof.
  apply (push_dispatch
           (mkEnv (fun _ _ => Throw OSError) (fun _ => 0%Z) (fun _ => 0%Z))
           (mkConfig None None None None None None None None)
           (lit "hello") world0);
    vm_compute; discriminate.
Defined.

(* ================================================================== *)
(** ** The Telegram sender *)

Section Telegram.
Variable E : env.
Variable cfg : config.


End Telegram.

(* ================================================================== *)
(** ** The retry loop of PushPlus and WxPusher *)

(** The two senders run the same loop over different requests and log
    messages. *)
Inductive retry_sender : Type := PushPlus | WxPusher.

Definition sender_run (E : env) (s : retry_sender)
           (content : pystr) (credential : option pystr) : M pyval :=
  match s with
  | PushPlus => push_pushplus E content credential
  | WxPusher => push_wxpusher E content credential
  end.

Definition sender_request (s : retry_sender)
           (content : pystr) (credential : option pystr) : request :=
  match s with
  | PushPlus => pushplus_request content credential
  | WxPusher => wxpusher_request content credential
  end.

Definition sender_response_msg (s : retry_sender) : pystr -> log_msg :=
  match s with
  | PushPlus => PushPlusResponse
  | WxPusher => WxPusherResponse
  end.

Definition sender_failed_msg (s : retry_sender) : exn -> log_msg :=
  match s with
  | PushPlus => PushPlusFailed
  | WxPusher => WxPusherFailed
  end.

Section RetryLoop.
Variable E : env.
Variable req : request.
Variable response_msg : pystr -> log_msg.
Variable failed_msg : exn -> log_msg.

(** The body shared by the two loops (lines 29-48 and 78-88). *)
Definition retry_attempt (attempt : nat) : M ctl :=
  (try_except
     (response <- requests_send E req ;;
      raise_for_status response ;;
      log INFO (response_msg (text response)) ;;
      ret Break)
     is_RequestException
     (fun e =>
        log ERROR (failed_msg e) ;;
        (if (attempt <? 5 - 1)%nat then
           sleep_time <- randint E 180 360 ;;
           log INFO (RetryIn sleep_time) ;;
           sleep sleep_time
         else ret tt) ;;
        ret Next))%py.

(** The pause drawn after a failed attempt, from the [i]-th draw. *)
Definition backoff (i : nat) : Z := (180 + draw E i mod 181)%Z.

(** What a failed attempt appends to the trace, and the world it leaves. *)
Definition failure_events (attempt : nat) (w : world) : list event :=
  [EvHttp req; EvLog ERROR (failed_msg (failure_of (http E (n_http w) req)))]
  ++ (if (attempt <? 4)%nat
      then [EvLog INFO (RetryIn (backoff (n_rand w)));
            EvSleep (backoff (n_rand w))]
      else []).

Definition after_failure (attempt : nat) (w : world) : world :=
  mkWorld (S (n_http w))
          (if (attempt <? 4)%nat then S (n_rand w) else n_rand w)
          (n_clock w)
          (trace w ++ failure_events attempt w).

Fixpoint after_failures (l : list nat) (w : world) : world :=
  match l with
  | [] => w
  | a :: l' => after_failures l' (after_failure a w)
  end.

Fixpoint failures_events (l : list nat) (w : world) : list event :=
  match l with
  | [] => []
  | a :: l' => failure_events a w ++ failures_events l' (after_failure a w)
  end.

Definition after_success (r : response) (w : world) : world :=
  mkWorld (S (n_http w)) (n_rand w) (n_clock w)
          (trace w ++ [EvHttp req; EvLog INFO (response_msg (text r))]).

(** One attempt, by the answer of the transport. *)
Lemma retry_attempt_succeeds (a : nat) (w : world) (r : response) :
  http E (n_http w) req = Resp r ->
  is_error_status (status_code r) = false ->
  retry_attempt a w = (Ok Break, after_success r w).
Proof.
  intros Hh Hs. unfold retry_attempt, after_success. run_py.
  rewrite Hh. simpl. rewrite Hs. simpl.
  rewrite <- app_assoc. reflexivity.
Qed.

Lemma retry_attempt_fails (a : nat) (w : world) :
  attempt_fails (http E (n_http w) req) = true ->
  retry_attempt a w = (Ok Next, after_failure a w).
Proof.
  intros Hf.
  unfold retry_attempt, after_failure, failure_events, backoff. run_py.
  destruct (http E (n_http w) req) as [r | e]; simpl in *.
  - rewrite Hf. simpl.
    destruct (a <? 4)%nat; simpl; rewrite <- ?app_assoc; reflexivity.
  - rewrite Hf.
    destruct (a <? 4)%nat; simpl; rewrite <- ?app_assoc; reflexivity.
Qed.

Lemma retry_attempt_escapes (a : nat) (w : world) (e : exn) :
  http E (n_http w) req = Throw e ->
  is_RequestException e = false ->
  retry_attempt a w =
    (Raise e, mkWorld (S (n_http w)) (n_rand w) (n_clock w)
                      (trace w ++ [EvHttp req])).
Proof.
  intros Hh He. unfold retry_attempt. run_py.
  rewrite Hh. simpl. rewrite He. reflexivity.
Qed.

Lemma n_http_after_failures (l : list nat) (w : world) :
  n_http (after_failures l w) = (n_http w + length l)%nat.
Proof.
  revert w. induction l as [| a l IH]; intros w; simpl.
  - lia.
  - rewrite IH. simpl. lia.
Qed.

Lemma trace_after_failures (l : list nat) (w : world) :
  trace (after_failures l w) = trace w ++ failures_events l w.
Proof.
  revert w. induction l as [| a l IH]; intros w; simpl.
  - rewrite app_nil_r. reflexivity.
  - rewrite IH. simpl. rewrite <- app_assoc. reflexivity.
Qed.

Lemma http_requests_failures (l : list nat) (w : world) :
  length (http_requests (failures_events l w)) = length l.
Proof.
  revert w. induction l as [| a l IH]; intros w; simpl; [reflexivity |].
  rewrite http_requests_app, length_app, IH.
  destruct (a <? 4)%nat; reflexivity.
Qed.

(** Each failure is logged with the exception it was handled with. *)
Lemma failures_logged (l : list nat) (w : world) (j : nat) :
  (j < length l)%nat ->
  In (EvLog ERROR (failed_msg (failure_of (http E (n_http w + j) req))))
     (failures_events l w).
Proof.
  revert w j. induction l as [| a l IH]; intros w j Hj; simpl in *.
  - lia.
  - destruct j as [| j].
    + right. left. rewrite Nat.add_0_r. reflexivity.
    + right. right. apply in_or_app. right.
      replace (n_http w + S j)%nat
        with (n_http (after_failure a w) + j)%nat by (simpl; lia).
      apply IH. lia.
Qed.

(** The loop steps over a run of failed attempts. *)
Lemma for_in_failures (l1 l2 : list nat) (w : world) :
  (forall j, (j < length l1)%nat ->
             attempt_fails (http E (n_http w + j) req) = true) ->
  for_in (l1 ++ l2) retry_attempt w =
  for_in l2 retry_attempt (after_failures l1 w).
Proof.
  revert w. induction l1 as [| a l1 IH]; intros w Hall; simpl.
  - reflexivity.
  - unfold bind at 1.
    rewrite retry_attempt_fails
      by (specialize (Hall 0%nat); rewrite Nat.add_0_r in Hall;
          apply Hall; simpl; lia).
    apply IH. intros j Hj.
    replace (n_http (after_failure a w) + j)%nat
      with (n_http w + S j)%nat by (simpl; lia).
    apply Hall. simpl. lia.
Qed.

(** Whatever the transport answers, the loop ends, and an exception that
    leaves it is one the transport threw from outside the requests
    hierarchy.  A non-empty loop makes at least one HTTP call. *)
Lemma for_in_retry_total (l : list nat) (w : world) :
  exists (r : outcome (option pyval)) (w' : world) (t : list event),
    for_in l retry_attempt w = (r, w')
    /\ trace w' = trace w ++ t
    /\ (forall e, r = Raise e -> is_RequestException e = false)
    /\ (l <> [] -> (1 <= length (http_requests t))%nat).
Proof.
  revert w. induction l as [| a l IH]; intros w.
  - exists (Ok None), w, []. simpl. rewrite app_nil_r.
    repeat split; try discriminate. congruence.
  - simpl. unfold bind at 1.
    destruct (http E (n_http w) req) as [r | e] eqn:Hh.
    + destruct (is_error_status (status_code r)) eqn:Hs.
      * rewrite retry_attempt_fails by (rewrite Hh; exact Hs).
        destruct (IH (after_failure a w)) as (r' & w' & t & Hrun & Ht & Hr & _).
        exists r', w', (failure_events a w ++ t). rewrite Hrun.
        repeat split; auto.
        -- rewrite Ht. simpl. rewrite <- app_assoc. reflexivity.
        -- intros _. simpl. lia.
      * rewrite (retry_attempt_succeeds a w r Hh Hs).
        exists (Ok None), (after_success r w),
               [EvHttp req; EvLog INFO (response_msg (text r))].
        repeat split; try discriminate. simpl. lia.
    + destruct (is_RequestException e) eqn:He.
      * rewrite retry_attempt_fails by (rewrite Hh; exact He).
        destruct (IH (after_failure a w)) as (r' & w' & t & Hrun & Ht & Hr & _).
        exists r', w', (failure_events a w ++ t). rewrite Hrun.
        repeat split; auto.
        -- rewrite Ht. simpl. rewrite <- app_assoc. reflexivity.
        -- intros _. simpl. lia.
      * rewrite (retry_attempt_escapes a w e Hh He).
        eexists; eexists; exists [EvHttp req].
        split; [reflexivity | split; [reflexivity | split]].
        -- intros e' [= <-]. exact He.
        -- intros _. simpl. lia.
Qed.

End RetryLoop.

(** The two senders are that loop. *)
Lemma sender_run_unfold (E : env) (s : retry_sender)
      (content : pystr) (credential : option pystr) :
  sender_run E s content credential =
  (for_in (range 5)
     (retry_attempt E (sender_request s content credential)
                    (sender_response_msg s) (sender_failed_msg s)) ;;
   ret PyNone)%py.
Proof. destruct s; reflexivity. Qed.

Section RetrySenders.
Variable E : env.

Lemma range_split (k : nat) :
  (k <= 5)%nat -> range 5 = seq 0 k ++ seq k (5 - k).
Proof.
  intros Hk. unfold range.
  replace 5%nat with (k + (5 - k))%nat at 1 by lia.
  rewrite seq_app. reflexivity.
Qed.

(** C4 (as the code has it). PushPlus and WxPusher: when each of the
    first [N < 5] attempts fails with an exception of the requests
    hierarchy (raised by the call, or by [raise_for_status] for a 4xx or
    5xx status) and attempt [N + 1] returns a response that
    [raise_for_status] accepts, exactly [N + 1] HTTP calls are made, and
    the successful call is followed by its log line only: no further
    call and no sleep. *)
Theorem retry_stops_at_first_success
        (s : retry_sender) (content : pystr) (credential : option pystr)
        (w : world) (N : nat)
        (HN : (N < 5)%nat)
        (Hfail : forall j, (j < N)%nat ->
           attempt_fails
             (http E (n_http w + j) (sender_request s content credential))
           = true)
        (Hok : attempt_succeeds
                 (http E (n_http w + N) (sender_request s content credential))
               = true) :
  exists (w' : world) (t pre : list event) (resp : response),
    sender_run E s content credential w = (Ok PyNone, w')
    /\ trace w' = trace w ++ t
    /\ length (http_requests t) = (N + 1)%nat
    /\ n_http w' = (n_http w + (N + 1))%nat
    /\ http E (n_http w + N) (sender_request s content credential) = Resp resp
    /\ t = pre ++ [EvHttp (sender_request s content credential);
                   EvLog INFO (sender_response_msg s (text resp))].
Proof.
  set (req := sender_request s content credential) in *.
  destruct (http E (n_http w + N) req) as [resp | e] eqn:Hh;
    [| discriminate].
  simpl in Hok. apply negb_true_iff in Hok.
  rewrite sender_run_unfold. fold req.
  rewrite (range_split N) by lia.
  destruct (5 - N)%nat as [| m] eqn:Hm; [lia |]. simpl seq.
  unfold bind at 1. rewrite for_in_failures by (rewrite length_seq; exact Hfail).
  set (w1 := after_failures E req (sender_failed_msg s) (seq 0 N) w).
  assert (Hn1 : n_http w1 = (n_http w + N)%nat)
    by (unfold w1; rewrite n_http_after_failures, length_seq; reflexivity).
  simpl for_in. unfold bind at 1.
  rewrite (retry_attempt_succeeds E req (sender_response_msg s)
             (sender_failed_msg s) N w1 resp)
    by (rewrite ?Hn1; assumption).
  unfold ret.
  eexists; exists (failures_events E req (sender_failed_msg s) (seq 0 N) w
                     ++ [EvHttp req;
                         EvLog INFO (sender_response_msg s (text resp))]);
    eexists; exists resp.
  split; [reflexivity |]. simpl.
  split; [unfold w1; rewrite trace_after_failures, <- app_assoc; reflexivity |].
  split; [rewrite http_requests_app, length_app, http_requests_failures,
                  length_seq; reflexivity |].
  split; [rewrite Hn1; lia |].
  split; reflexivity.
Qed.

(** C5 (as the code has it). PushPlus and WxPusher: when every attempt
    fails with an exception of the requests hierarchy (raised by the
    call, or by [raise_for_status] for a 4xx or 5xx status), exactly 5
    HTTP calls are made, each of the first 4 is followed by one sleep of
    180 to 360 seconds, both bounds included, nothing follows the last
    call but its log line, and the sender returns [None] without
    raising. *)
Theorem retry_exhausts_after_five
        (s : retry_sender) (content : pystr) (credential : option pystr)
        (w : world)
        (Hfail : forall j, (j < 5)%nat ->
           attempt_fails
             (http E (n_http w + j) (sender_request s content credential))
           = true) :
  exists (w' : world) (t : list event) (s0 s1 s2 s3 : Z),
    sender_run E s content credential w = (Ok PyNone, w')
    /\ trace w' = trace w ++ t
    /\ io_of t = [IoHttp; IoSleep s0; IoHttp; IoSleep s1; IoHttp; IoSleep s2;
                  IoHttp; IoSleep s3; IoHttp]
    /\ length (http_requests t) = 5%nat
    /\ n_http w' = (n_http w + 5)%nat
    /\ (180 <= s0 <= 360 /\ 180 <= s1 <= 360
        /\ 180 <= s2 <= 360 /\ 180 <= s3 <= 360)%Z.
Proof.
  set (req := sender_request s content credential) in *.
  rewrite sender_run_unfold. fold req.
  rewrite (range_split 5) by lia. simpl (5 - 5)%nat. simpl seq.
  unfold bind at 1.
  rewrite for_in_failures by exact Hfail.
  simpl for_in. unfold ret.
  eexists; exists (failures_events E req (sender_failed_msg s)
                     [0; 1; 2; 3; 4]%nat w).
  exists (backoff E (n_rand w)), (backoff E (S (n_rand w))),
         (backoff E (S (S (n_rand w)))), (backoff E (S (S (S (n_rand w))))).
  split; [reflexivity |].
  split; [exact (trace_after_failures E req (sender_failed_msg s)
                                      [0; 1; 2; 3; 4]%nat w) |].
  split; [reflexivity |].
  split; [reflexivity |].
  split; [simpl; lia |].
  unfold backoff.
  repeat split; try (apply (randint_bounds 180 360); lia);
    apply (randint_bounds 180 360); lia.
Qed.

(** C9 (as the code has it). PushPlus: an exception of the requests
    hierarchy raised during an HTTP attempt is caught and logged, the next
    attempt follows while attempts remain, and it never reaches the
    caller; an exception that does reach the caller is of another class.
    And an exception of any other class is not caught: when, after [k]
    such failures, attempt [k + 1] raises one, it reaches the caller, and
    that call is the last thing the sender did, with no log line and no
    further attempt. *)
Theorem pushplus_request_exceptions_retried
        (content : pystr) (token : option pystr) (w : world) (k : nat)
        (Hk : (k <= 5)%nat)
        (Hfail : forall j, (j < k)%nat ->
           attempt_fails
             (http E (n_http w + j) (pushplus_request content token))
           = true) :
  exists (r : outcome pyval) (w' : world) (t : list event),
    push_pushplus E content token w = (r, w')
    /\ trace w' = trace w ++ t
    /\ (forall e, r = Raise e -> is_RequestException e = false)
    /\ (k = 5%nat -> r = Ok PyNone)
    /\ (forall j, (j < k)%nat ->
          In (EvLog ERROR
                (PushPlusFailed
                   (failure_of
                      (http E (n_http w + j)
                            (pushplus_request content token)))))
             t)
    /\ (Nat.min (k + 1) 5 <= length (http_requests t))%nat
    /\ (forall e, (k < 5)%nat ->
          http E (n_http w + k) (pushplus_request content token) = Throw e ->
          is_RequestException e = false ->
          r = Raise e
          /\ length (http_requests t) = S k
          /\ n_http w' = (n_http w + S k)%nat
          /\ exists pre,
               t = pre ++ [EvHttp (pushplus_request content token)]).
Proof.
  set (req := pushplus_request content token) in *.
  change (push_pushplus E content token)
    with (sender_run E PushPlus content token).
  rewrite sender_run_unfold. simpl sender_request. fold req.
  simpl sender_response_msg. simpl sender_failed_msg.
  rewrite (range_split k) by lia.
  unfold bind at 1.
  rewrite for_in_failures by (rewrite length_seq; exact Hfail).
  set (w1 := after_failures E req PushPlusFailed (seq 0 k) w).
  assert (Hn1 : n_http w1 = (n_http w + k)%nat)
    by (unfold w1; rewrite n_http_after_failures, length_seq; reflexivity).
  destruct (for_in_retry_total E req PushPlusResponse PushPlusFailed
              (seq k (5 - k)) w1) as (r2 & w2 & t2 & Hrun & Ht & Hr & Hne).
  assert (Hesc : forall e, (k < 5)%nat ->
            http E (n_http w + k) req = Throw e ->
            is_RequestException e = false ->
            r2 = Raise e /\ t2 = [EvHttp req]
            /\ n_http w2 = S (n_http w1)).
  { intros e Hlt Hh He.
    destruct (5 - k)%nat as [| m] eqn:Hm; [lia |].
    simpl seq in Hrun. simpl for_in in Hrun. unfold bind at 1 in Hrun.
    rewrite (retry_attempt_escapes E req PushPlusResponse PushPlusFailed
               k w1 e) in Hrun by (rewrite ?Hn1; assumption).
    injection Hrun as <- <-. simpl in Ht.
    apply app_inv_head in Ht.
    split; [reflexivity |]. split; [symmetry; exact Ht | reflexivity]. }
  rewrite Hrun.
  exists (match r2 with Ok _ => Ok PyNone | Raise e => Raise e end), w2,
         (failures_events E req PushPlusFailed (seq 0 k) w ++ t2).
  split; [destruct r2; reflexivity |].
  split; [rewrite Ht; unfold w1;
          rewrite trace_after_failures, <- app_assoc; reflexivity |].
  split; [intros e He; destruct r2 as [v | e2]; [discriminate |];
          injection He as <-; apply Hr; reflexivity |].
  split.
  { intros ->. simpl in Hrun. unfold ret in Hrun.
    injection Hrun as <- _. reflexivity. }
  split.
  { intros j Hj. apply in_or_app. left.
    apply failures_logged. rewrite length_seq. exact Hj. }
  split.
  { rewrite http_requests_app, length_app, http_requests_failures, length_seq.
    destruct (Nat.eq_dec k 5) as [-> | Hne5]; [simpl; lia |].
    assert (seq k (5 - k) <> []).
    { destruct (5 - k)%nat eqn:Hm; [lia | simpl; discriminate]. }
    specialize (Hne H). lia. }
  intros e Hlt Hh He.
  destruct (Hesc e Hlt Hh He) as (-> & -> & Hn2).
  split; [reflexivity |].
  split; [rewrite http_requests_app, length_app, http_requests_failures,
                  length_seq; simpl; lia |].
  split; [rewrite Hn2, Hn1; lia |].
  eexists. reflexivity.
Qed.

End RetrySenders.

(** *** Concrete transports *)

(** A transport that refuses every connection, with a random source that
    always draws 180. *)
Definition refusing_env : env :=
  mkEnv (fun _ _ => Throw (RequestException ConnectionError))
        (fun _ => 180%Z) (fun _ => 1700000000000%Z).

(** A transport that fails twice with a server error and then answers. *)
Definition flaky_env : env :=
  mkEnv (fun n _ =>
           if (n <? 2)%nat
           then Resp (mkResponse 503 (lit "busy") None)
           else Resp (mkResponse 200 (lit "ok") None))
        (fun _ => 7%Z) (fun _ => 1700000000000%Z).

(** A transport that cannot find its certificate bundle: [requests]
    raises a plain [OSError] for that, outside its own hierarchy. *)
Definition broken_env : env :=
  mkEnv (fun _ _ => Throw OSError) (fun _ => 0%Z) (fun _ => 0%Z).

(** A transport whose first call fails with that [OSError] and which
    answers every later call with status 200. *)
Definition stumbling_env : env :=
  mkEnv (fun n _ =>
           if (n <? 1)%nat
           then Throw OSError
           else Resp (mkResponse 200 (lit "ok") None))
        (fun _ => 0%Z) (fun _ => 0%Z).

(** A transport that refuses two connections and then fails with that
    [OSError]. *)
Definition refused_then_broken_env : env :=
  mkEnv (fun n _ =>
           if (n <? 2)%nat
           then Throw (RequestException ConnectionError)
           else Throw OSError)
        (fun _ => 0%Z) (fun _ => 0%Z).

Lemma retry_stops_at_first_success_witness :
  exists (w' : world) (t pre : list event) (resp : response),
    sender_run flaky_env WxPusher (lit "hi") (Some (lit "SPT")) world0
      = (Ok PyNone, w')
    /\ trace w' = trace world0 ++ t
    /\ length (http_requests t) = (2 + 1)%nat
    /\ n_http w' = (n_http world0 + (2 + 1))%nat
    /\ http flaky_env (n_http world0 + 2)
            (sender_request WxPusher (lit "hi") (Some (lit "SPT")))
       = Resp resp
    /\ t = pre ++ [EvHttp (sender_request WxPusher (lit "hi")
                                          (Some (lit "SPT")));
                   EvLog INFO (sender_response_msg WxPusher (text resp))].
Proof.
  apply (retry_stops_at_first_success
           flaky_env WxPusher (lit "hi") (Some (lit "SPT")) world0 2).
  - lia.
  - intros [| [| j]] Hj; [reflexivity | reflexivity | lia].
  - reflexivity.
Defined.

(** C4, counterexample. The transport fails on the first attempt, with
    an [OSError], and succeeds on the second (N = 1): both senders make
    one HTTP call, not two, and raise instead of trying again. *)
Lemma retry_gives_up_on_other_exception :
  (forall r, http stumbling_env 0 r = Throw OSError)
  /\ (forall r, attempt_succeeds (http stumbling_env 1 r) = true)
  /\ push_pushplus stumbling_env (lit "hi") None world0 =
       (Raise OSError,
        mkWorld 1 0 0 [EvHttp (pushplus_request (lit "hi") None)])
  /\ push_wxpusher stumbling_env (lit "hi") None world0 =
       (Raise OSError,
        mkWorld 1 0 0 [EvHttp (wxpusher_request (lit "hi") None)])
  /\ length (http_requests
               (trace (snd (push_pushplus stumbling_env (lit "hi") None
                                          world0))))
     <> (1 + 1)%nat.
Proof.
  split; [intros r; reflexivity |].
  split; [intros r; reflexivity |].
  split; [vm_compute; reflexivity |].
  split; [vm_compute; reflexivity |].
  vm_compute. discriminate.
Qed.

Lemma retry_exhausts_after_five_witness :
  exists (w' : world) (t : list event) (s0 s1 s2 s3 : Z),
    sender_run refusing_env PushPlus (lit "hi") None world0 = (Ok PyNone, w')
    /\ trace w' = trace world0 ++ t
    /\ io_of t = [IoHttp; IoSleep s0; IoHttp; IoSleep s1; IoHttp; IoSleep s2;
                  IoHttp; IoSleep s3; IoHttp]
    /\ length (http_requests t) = 5%nat
    /\ n_http w' = (n_http world0 + 5)%nat
    /\ (180 <= s0 <= 360 /\ 180 <= s1 <= 360
        /\ 180 <= s2 <= 360 /\ 180 <= s3 <= 360)%Z.
Proof.
  apply (retry_exhausts_after_five
           refusing_env PushPlus (lit "hi") None world0).
  intros j _. reflexivity.
Defined.

(** C5, counterexample. With every attempt refused and a draw of 180,
    [random.randint(180, 360)] yields 360: each pause lasts 360 seconds,
    which is outside the half-open interval from 180 to 360.  And with a
    transport that fails on every attempt with an [OSError], both senders
    make one HTTP call, not five, and raise. *)
Lemma retry_backoff_reaches_360 :
  (forall j, attempt_fails
               (http refusing_env j (pushplus_request (lit "hi") None))
             = true)
  /\ io_of (trace (snd (push_pushplus refusing_env (lit "hi") None world0)))
     = [IoHttp; IoSleep 360; IoHttp; IoSleep 360; IoHttp; IoSleep 360;
        IoHttp; IoSleep 360; IoHttp]
  /\ io_of (trace (snd (push_wxpusher refusing_env (lit "hi") None world0)))
     = [IoHttp; IoSleep 360; IoHttp; IoSleep 360; IoHttp; IoSleep 360;
        IoHttp; IoSleep 360; IoHttp]
  /\ ~ (180 <= 360 < 360)%Z
  /\ (forall j r, http broken_env j r = Throw OSError)
  /\ push_pushplus broken_env (lit "hi") None world0 =
       (Raise OSError,
        mkWorld 1 0 0 [EvHttp (pushplus_request (lit "hi") None)])
  /\ push_wxpusher broken_env (lit "hi") None world0 =
       (Raise OSError,
        mkWorld 1 0 0 [EvHttp (wxpusher_request (lit "hi") None)]).
Proof.
  split; [intros j; reflexivity |].
  split; [vm_compute; reflexivity |].
  split; [vm_compute; reflexivity |].
  split; [lia |].
  split; [intros j r; reflexivity |].
  split; vm_compute; reflexivity.
Qed.

Lemma pushplus_request_exceptions_retried_witness :
  exists (r : outcome pyval) (w' : world) (t : list event),
    push_pushplus refusing_env (lit "hi") None world0 = (r, w')
    /\ trace w' = trace world0 ++ t
    /\ (forall e, r = Raise e -> is_RequestException e = false)
    /\ (5%nat = 5%nat -> r = Ok PyNone)
    /\ (forall j, (j < 5)%nat ->
          In (EvLog ERROR
                (PushPlusFailed
                   (failure_of
                      (http refusing_env (n_http world0 + j)
                            (pushplus_request (lit "hi") None)))))
             t)
    /\ (Nat.min (5 + 1) 5 <= length (http_requests t))%nat
    /\ (forall e, (5 < 5)%nat ->
          http refusing_env (n_http world0 + 5)
               (pushplus_request (lit "hi") None) = Throw e ->
          is_RequestException e = false ->
          r = Raise e
          /\ length (http_requests t) = 6%nat
          /\ n_http w' = (n_http world0 + 6)%nat
          /\ exists pre,
               t = pre ++ [EvHttp (pushplus_request (lit "hi") None)]).
Proof.
  apply (pushplus_request_exceptions_retried
           refusing_env (lit "hi") None world0 5).
  - lia.
  - intros j _. reflexivity.
Defined.

(** C9, counterexample. An exception from outside the requests hierarchy,
    raised by the first HTTP call, leaves [push_pushplus]: it is neither
    logged nor followed by a second attempt. *)
Lemma pushplus_other_exception_propagates :
  is_RequestException OSError = false
  /\ push_pushplus broken_env (lit "hi") None world0 =
       (Raise OSError,
        mkWorld 1 0 0 [EvHttp (pushplus_request (lit "hi") None)]).
Proof. split; vm_compute; reflexivity. Qed.

(** Two refused connections are retried, the [OSError] of the third call
    is not: three calls, two pauses, two error lines, and the exception
    reaches the caller. *)
Example pushplus_refused_twice_then_broken :
  let run := push_pushplus refused_then_broken_env (lit "hi") None world0 in
  fst run = Raise OSError
  /\ io_of (trace (snd run)) = [IoHttp; IoSleep 180; IoHttp; IoSleep 180; IoHttp]
  /\ last (trace (snd run)) EvClock
     = EvHttp (pushplus_request (lit "hi") None).
Proof. vm_compute. repeat split. Qed.

(* ================================================================== *)
(** ** The DingTalk sender *)

Section DingTalk.
Variable E : env.
Variable cfg : config.
Variable content : pystr.

(** The pause drawn after a failed DingTalk attempt, from the [i]-th
    draw. *)
Definition dingtalk_backoff (i : nat) : Z := (2 + draw E i mod 4)%Z.

Lemma dingtalk_backoff_bounds (i : nat) :
  (2 <= dingtalk_backoff i <= 5)%Z.
Proof. unfold dingtalk_backoff. apply (randint_bounds 2 5). lia. Qed.

(** C7. Without a webhook ([None] or the empty string) [push_dingtalk]
    logs the error and returns [False] at once: the counters of HTTP
    calls, random draws and clock readings are unchanged and the trace
    grows by that one log line, so there is no HTTP call and no retry. *)
Theorem push_dingtalk_without_webhook (w : world)
        (Hunset : DINGTALK_WEBHOOK cfg = None
                  \/ DINGTALK_WEBHOOK cfg = Some []) :
  push_dingtalk E cfg content w =
    (Ok (PyBool false),
     mkWorld (n_http w) (n_rand w) (n_clock w)
             (trace w ++ [EvLog ERROR DingTalkNoWebhook])).
Proof.
  unfold push_dingtalk.
  destruct Hunset as [-> | ->]; reflexivity.
Qed.

(** C10. With a webhook but no secret ([None]) there is no check before
    the loop: each of the 3 attempts reads the clock, fails in
    [generate_dingtalk_sign] with [AttributeError] before any HTTP call,
    and is logged by the handler; a pause follows the first two attempts
    only, and the sender returns [False] without raising. *)
Theorem push_dingtalk_without_secret (w : world)
        (Hhook : truthy (DINGTALK_WEBHOOK cfg) = true)
        (Hsecret : DINGTALK_SECRET cfg = None) :
  let s0 := dingtalk_backoff (n_rand w) in
  let s1 := dingtalk_backoff (S (n_rand w)) in
  push_dingtalk E cfg content w =
    (Ok (PyBool false),
     mkWorld (n_http w) (S (S (n_rand w))) (S (S (S (n_clock w))))
             (trace w ++
              [EvClock; EvLog ERROR (DingTalkException AttributeError);
               EvLog INFO (DingTalkRetryIn s0); EvSleep s0;
               EvClock; EvLog ERROR (DingTalkException AttributeError);
               EvLog INFO (DingTalkRetryIn s1); EvSleep s1;
               EvClock; EvLog ERROR (DingTalkException AttributeError)]))
  /\ (2 <= s0 <= 5)%Z /\ (2 <= s1 <= 5)%Z.
Proof.
  intros s0 s1. split; [| split; apply dingtalk_backoff_bounds].
  unfold push_dingtalk. rewrite Hhook, Hsecret. simpl negb. cbv iota.
  unfold generate_dingtalk_sign. run_py.
  rewrite <- !app_assoc. reflexivity.
Qed.

End DingTalk.

(** A configuration with a webhook and a secret, one without a webhook,
    one without a secret. *)
Definition dingtalk_cfg : config :=
  mkConfig None None None None
           (Some (lit "https://oapi.dingtalk.com/robot/send?access_token=t"))
           (Some (lit "testsecret")) None None.

Definition no_webhook_cfg : config :=
  mkConfig None None None None (Some []) (Some (lit "testsecret")) None None.

Definition no_secret_cfg : config :=
  mkConfig None None None None
           (Some (lit "https://oapi.dingtalk.com/robot/send?access_token=t"))
           None None None.

Lemma push_dingtalk_without_webhook_witness :
  push_dingtalk refusing_env no_webhook_cfg (lit "hi") world0 =
    (Ok (PyBool false), mkWorld 0 0 0 [EvLog ERROR DingTalkNoWebhook]).
Proof.
  apply (push_dingtalk_without_webhook
           refusing_env no_webhook_cfg (lit "hi") world0).
  right. reflexivity.
Defined.

Lemma push_dingtalk_without_secret_witness :
  push_dingtalk refusing_env no_secret_cfg (lit "hi") world0 =
    (Ok (PyBool false),
     mkWorld 0 2 3
             [EvClock; EvLog ERROR (DingTalkException AttributeError);
              EvLog INFO (DingTalkRetryIn 2); EvSleep 2;
              EvClock; EvLog ERROR (DingTalkException AttributeError);
              EvLog INFO (DingTalkRetryIn 2); EvSleep 2;
              EvClock; EvLog ERROR (DingTalkException AttributeError)])
  /\ (2 <= 2 <= 5)%Z /\ (2 <= 2 <= 5)%Z.
Proof.
  apply (push_dingtalk_without_secret
           refusing_env no_secret_cfg (lit "hi") world0);
    reflexivity.
Defined.

(** *** The attempts of the DingTalk loop *)

Section DingTalkLoop.
Variable E : env.
Variable cfg : config.
Variable content : pystr.

(** The body of the loop (lines 98-138). *)
Definition dingtalk_attempt (attempt : nat) : M ctl :=
  (c <- try_except
          (now <- time_ms E ;;
           let timestamp := str_of_int now in
           let secret := DINGTALK_SECRET cfg in
           sign <- lift (generate_dingtalk_sign timestamp secret) ;;
           response <-
             requests_send E (dingtalk_request cfg timestamp sign content) ;;
           raise_for_status response ;;
           j <- response_json response ;;
           errcode <- py_get j (lit "errcode") ;;
           if py_eq_int0 errcode then
             log INFO DingTalkSent ;;
             ret (Return (PyBool true))
           else
             log ERROR (DingTalkRejected (text response)) ;;
             ret Next)
          is_Exception
          (fun e =>
             log ERROR (DingTalkException e) ;;
             ret Next) ;;
   match c with
   | Return v => ret (Return v)
   | _ =>
       (if (attempt <? 3 - 1)%nat then
          wait_time <- randint E 2 5 ;;
          log INFO (DingTalkRetryIn wait_time) ;;
          sleep wait_time
        else ret tt) ;;
       ret Next
   end)%py.

Lemma push_dingtalk_unfold :
  push_dingtalk E cfg content =
  if negb (truthy (DINGTALK_WEBHOOK cfg)) then
    (log ERROR DingTalkNoWebhook ;; ret (PyBool false))%py
  else
    (r <- for_in (range 3) dingtalk_attempt ;;
     match r with
     | Some v => ret v
     | None => ret (PyBool false)
     end)%py.
Proof. reflexivity. Qed.

(** What an attempt that starts in world [w] computes: the timestamp from
    the next clock reading, its signature, and the request they give. *)
Definition attempt_timestamp (w : world) : pystr :=
  str_of_int (clock_ms E (n_clock w)).

Definition attempt_sign (w : world) : outcome pystr :=
  generate_dingtalk_sign (attempt_timestamp w) (DINGTALK_SECRET cfg).

Definition attempt_request (w : world) : option request :=
  match attempt_sign w with
  | Ok sign => Some (dingtalk_request cfg (attempt_timestamp w) sign content)
  | Raise _ => None
  end.

(** A qualifying answer: a response that [raise_for_status] accepts and
    whose JSON body is an object with [errcode == 0]. *)
Definition qualifies (h : http_result) : bool :=
  match h with
  | Resp r =>
      negb (is_error_status (status_code r))
      && match json_body r with
         | Some (PyDict d) => py_eq_int0 (dict_get d (lit "errcode"))
         | _ => false
         end
  | Throw _ => false
  end.

(** The line logged for an answer that does not qualify. *)
Definition rejection (h : http_result) : log_msg :=
  match h with
  | Throw e => DingTalkException e
  | Resp r =>
      if is_error_status (status_code r)
      then DingTalkException (RequestException (HTTPError (status_code r)))
      else match json_body r with
           | None => DingTalkException JSONDecodeError
           | Some (PyDict _) => DingTalkRejected (text r)
           | Some _ => DingTalkException AttributeError
           end
  end.

Definition attempt_qualifies (w : world) : bool :=
  match attempt_request w with
  | Some req => qualifies (http E (n_http w) req)
  | None => false
  end.

Definition attempt_calls (w : world) : list event :=
  match attempt_request w with
  | Some req => [EvHttp req]
  | None => []
  end.

Definition attempt_failure_msg (w : world) : log_msg :=
  match attempt_sign w with
  | Ok sign =>
      rejection (http E (n_http w)
                      (dingtalk_request cfg (attempt_timestamp w) sign content))
  | Raise e => DingTalkException e
  end.

Definition dingtalk_backoff_events (attempt : nat) (w : world)
  : list event :=
  if (attempt <? 2)%nat
  then [EvLog INFO (DingTalkRetryIn (dingtalk_backoff E (n_rand w)));
        EvSleep (dingtalk_backoff E (n_rand w))]
  else [].

Definition dingtalk_failure_events (attempt : nat) (w : world)
  : list event :=
  EvClock :: attempt_calls w
  ++ [EvLog ERROR (attempt_failure_msg w)]
  ++ dingtalk_backoff_events attempt w.

Definition dingtalk_after_failure (attempt : nat) (w : world) : world :=
  mkWorld (n_http w + length (attempt_calls w))
          (if (attempt <? 2)%nat then S (n_rand w) else n_rand w)
          (S (n_clock w))
          (trace w ++ dingtalk_failure_events attempt w).

Definition dingtalk_success_events (w : world) : list event :=
  EvClock :: attempt_calls w ++ [EvLog INFO DingTalkSent].

Definition dingtalk_after_success (w : world) : world :=
  mkWorld (n_http w + length (attempt_calls w)) (n_rand w) (S (n_clock w))
          (trace w ++ dingtalk_success_events w).

(** One attempt either returns [True] out of the function or falls
    through to the next iteration; it never raises. *)
Lemma dingtalk_attempt_spec (a : nat) (w : world) :
  dingtalk_attempt a w =
  if attempt_qualifies w
  then (Ok (Return (PyBool true)), dingtalk_after_success w)
  else (Ok Next, dingtalk_after_failure a w).
Proof.
  unfold dingtalk_attempt, attempt_qualifies, dingtalk_after_success,
    dingtalk_after_failure, dingtalk_success_events, dingtalk_failure_events,
    dingtalk_backoff_events, attempt_failure_msg, attempt_calls,
    attempt_request, attempt_sign, attempt_timestamp, dingtalk_backoff.
  run_py.
  destruct (generate_dingtalk_sign (str_of_int (clock_ms E (n_clock w)))
                                   (DINGTALK_SECRET cfg)) as [sign | e];
    simpl.
  - destruct (http E (n_http w) _) as [r | e]; simpl.
    + destruct (is_error_status (status_code r)); simpl.
      * destruct (a <? 2)%nat; simpl;
          rewrite <- ?app_assoc, ?Nat.add_1_r; reflexivity.
      * destruct (json_body r) as [[| | | | | | d] |]; simpl;
          try (destruct (a <? 2)%nat; simpl;
               rewrite <- ?app_assoc, ?Nat.add_1_r; reflexivity).
        destruct (py_eq_int0 (dict_get d (lit "errcode"))); simpl;
          [| destruct (a <? 2)%nat; simpl];
          rewrite <- ?app_assoc, ?Nat.add_1_r; reflexivity.
    + destruct (a <? 2)%nat; simpl;
        rewrite <- ?app_assoc, ?Nat.add_1_r; reflexivity.
  - destruct (a <? 2)%nat; simpl;
      rewrite <- ?app_assoc, ?Nat.add_0_r; reflexivity.
Qed.

(** The whole sender, attempt by attempt. *)
Lemma push_dingtalk_unroll (w : world) :
  truthy (DINGTALK_WEBHOOK cfg) = true ->
  push_dingtalk E cfg content w =
  if attempt_qualifies w
  then (Ok (PyBool true), dingtalk_after_success w)
  else
    let w1 := dingtalk_after_failure 0 w in
    if attempt_qualifies w1
    then (Ok (PyBool true), dingtalk_after_success w1)
    else
      let w2 := dingtalk_after_failure 1 w1 in
      if attempt_qualifies w2
      then (Ok (PyBool true), dingtalk_after_success w2)
      else (Ok (PyBool false), dingtalk_after_failure 2 w2).
Proof.
  intros Hhook. rewrite push_dingtalk_unfold, Hhook.
  change (negb true) with false. cbv beta iota.
  change (range 3) with [0; 1; 2]%nat. cbn [for_in]. unfold bind.
  rewrite (dingtalk_attempt_spec 0 w).
  destruct (attempt_qualifies w); [reflexivity |].
  rewrite (dingtalk_attempt_spec 1).
  destruct (attempt_qualifies (dingtalk_after_failure 0 w)); [reflexivity |].
  rewrite (dingtalk_attempt_spec 2).
  destruct (attempt_qualifies _); reflexivity.
Qed.

End DingTalkLoop.

(** The clock readings and the sleeps of a trace, in order. *)
Fixpoint pauses (t : list event) : list io :=
  match t with
  | [] => []
  | EvSleep s :: t' => IoSleep s :: pauses t'
  | EvClock :: t' => IoClock :: pauses t'
  | _ :: t' => pauses t'
  end.

Section DingTalkClaims.
Variable E : env.
Variable cfg : config.
Variable content : pystr.

(** An attempt makes no HTTP call when the signature cannot be computed,
    and otherwise exactly one, with the timestamp it has just read and the
    signature of that timestamp. *)
Lemma attempt_cases (w : world) :
  (attempt_calls E cfg content w = []
   /\ attempt_qualifies E cfg content w = false)
  \/ (exists (req : request) (sign : pystr),
        attempt_calls E cfg content w = [EvHttp req]
        /\ generate_dingtalk_sign (str_of_int (clock_ms E (n_clock w)))
                                  (DINGTALK_SECRET cfg) = Ok sign
        /\ req = dingtalk_request cfg (str_of_int (clock_ms E (n_clock w)))
                                  sign content
        /\ attempt_qualifies E cfg content w
           = qualifies (http E (n_http w) req)).
Proof.
  unfold attempt_calls, attempt_qualifies, attempt_request, attempt_sign,
    attempt_timestamp.
  destruct (generate_dingtalk_sign _ _) as [sign | e].
  - right. eexists; exists sign. repeat split; reflexivity.
  - left. split; reflexivity.
Qed.

Lemma pauses_app (t u : list event) :
  pauses (t ++ u) = pauses t ++ pauses u.
Proof.
  induction t as [| e t IH]; simpl; [reflexivity |].
  destruct e; simpl; rewrite IH; reflexivity.
Qed.

Lemma alternate_pauses (l : list Z) :
  flat_map (fun s => [IoClock; IoSleep s]) l ++ [IoClock] =
  IoClock :: flat_map (fun s => [IoSleep s; IoClock]) l.
Proof.
  induction l as [| s l IH]; simpl; [reflexivity |].
  rewrite IH. reflexivity.
Qed.

(** What the events of one attempt contribute to each observation. *)
Lemma http_requests_failure_events (a : nat) (w : world) :
  http_requests (dingtalk_failure_events E cfg content a w) =
  http_requests (attempt_calls E cfg content w).
Proof.
  unfold dingtalk_failure_events, dingtalk_backoff_events. simpl.
  rewrite http_requests_app.
  destruct (a <? 2)%nat; simpl; apply app_nil_r.
Qed.

Lemma sleeps_failure_events (a : nat) (w : world) :
  sleeps (dingtalk_failure_events E cfg content a w) =
  if (a <? 2)%nat then [dingtalk_backoff E (n_rand w)] else [].
Proof.
  unfold dingtalk_failure_events, dingtalk_backoff_events. simpl.
  rewrite sleeps_app.
  destruct (attempt_cases w) as [[C _] | (req & sg & C & _)]; rewrite C;
    destruct (a <? 2)%nat; reflexivity.
Qed.

Lemma pauses_failure_events (a : nat) (w : world) :
  pauses (dingtalk_failure_events E cfg content a w) =
  IoClock :: (if (a <? 2)%nat
              then [IoSleep (dingtalk_backoff E (n_rand w))] else []).
Proof.
  unfold dingtalk_failure_events, dingtalk_backoff_events. simpl.
  rewrite pauses_app.
  destruct (attempt_cases w) as [[C _] | (req & sg & C & _)]; rewrite C;
    destruct (a <? 2)%nat; reflexivity.
Qed.

Lemma observe_success_events (w : world) :
  http_requests (dingtalk_success_events E cfg content w) =
    http_requests (attempt_calls E cfg content w)
  /\ sleeps (dingtalk_success_events E cfg content w) = []
  /\ pauses (dingtalk_success_events E cfg content w) = [IoClock].
Proof.
  unfold dingtalk_success_events. simpl.
  rewrite http_requests_app, sleeps_app, pauses_app.
  destruct (attempt_cases w) as [[C _] | (req & sg & C & _)]; rewrite C;
    repeat split.
Qed.

(** The state of a run after [i] failed attempts: [wi] is the world
    reached from [w], and [t] what was appended to the trace. *)
Record progress (w : world) (i : nat) (wi : world) (t : list event)
  : Prop := mkProgress
  { pr_trace : trace wi = trace w ++ t;
    pr_clock : n_clock wi = (n_clock w + i)%nat;
    pr_http : n_http wi = (n_http w + length (http_requests t))%nat;
    pr_calls : (length (http_requests t) <= i)%nat;
    pr_requests :
      forall req, In req (http_requests t) ->
        exists (i' : nat) (sign : pystr),
          (i' < i)%nat
          /\ generate_dingtalk_sign
               (str_of_int (clock_ms E (n_clock w + i')))
               (DINGTALK_SECRET cfg) = Ok sign
          /\ req = dingtalk_request cfg
                     (str_of_int (clock_ms E (n_clock w + i')))
                     sign content;
    pr_unqualified :
      forall j req, nth_error (http_requests t) j = Some req ->
        qualifies (http E (n_http w + j) req) = false;
    pr_bounds : Forall (fun s => (2 <= s <= 5)%Z) (sleeps t);
    pr_pauses :
      pauses t = flat_map (fun s => [IoClock; IoSleep s]) (sleeps t)
                 ++ (if (i =? 3)%nat then [IoClock] else []);
    pr_sleeps : length (sleeps t) = Nat.min i 2 }.

Lemma progress_start (w : world) : progress w 0 w [].
Proof.
  constructor; simpl; try rewrite app_nil_r; try reflexivity; try lia;
    try tauto.
  - intros j req Hj. destruct j; discriminate.
  - constructor.
Qed.

(** The requests of [t], then those of one more attempt. *)
Lemma one_more_attempt (w wi : world) (i : nat) (t : list event) :
  progress w i wi t ->
  (length (http_requests t ++ http_requests (attempt_calls E cfg content wi))
   <= S i)%nat
  /\ (n_http wi + length (attempt_calls E cfg content wi))%nat
     = (n_http w
        + length (http_requests t
                  ++ http_requests (attempt_calls E cfg content wi)))%nat
  /\ (forall req,
        In req (http_requests t
                ++ http_requests (attempt_calls E cfg content wi)) ->
        exists (i' : nat) (sign : pystr),
          (i' < S i)%nat
          /\ generate_dingtalk_sign
               (str_of_int (clock_ms E (n_clock w + i')))
               (DINGTALK_SECRET cfg) = Ok sign
          /\ req = dingtalk_request cfg
                     (str_of_int (clock_ms E (n_clock w + i')))
                     sign content)
  /\ (forall j req,
        nth_error (http_requests t
                   ++ http_requests (attempt_calls E cfg content wi)) j
        = Some req ->
        (j < length (http_requests t)
         /\ qualifies (http E (n_http w + j) req) = false)%nat
        \/ (j = length (http_requests t)
            /\ S j = length (http_requests t
                             ++ http_requests
                                  (attempt_calls E cfg content wi))
            /\ qualifies (http E (n_http w + j) req)
               = attempt_qualifies E cfg content wi)).
Proof.
  intros P. destruct P.
  destruct (attempt_cases wi) as [[C Q] | (req & sg & C & S & R & Q)];
    rewrite C; simpl; rewrite ?app_nil_r, ?length_app; simpl.
  - split; [lia |]. split; [lia |]. split.
    + intros r Hr. destruct (pr_requests0 r Hr) as (i' & sign & Hi & Hs).
      exists i', sign. split; [lia | exact Hs].
    + intros j r Hj. left. split.
      * apply nth_error_Some. congruence.
      * apply pr_unqualified0. exact Hj.
  - split; [lia |]. split; [lia |]. split.
    + intros r Hr. apply in_app_or in Hr. destruct Hr as [Hr | [<- | []]].
      * destruct (pr_requests0 r Hr) as (i' & sign & Hi & Hs).
        exists i', sign. split; [lia | exact Hs].
      * exists i, sg. rewrite <- pr_clock0. split; [lia |]. split; assumption.
    + intros j r Hj.
      destruct (Nat.lt_ge_cases j (length (http_requests t))) as [Hlt | Hge].
      * left. split; [exact Hlt |].
        rewrite nth_error_app1 in Hj by exact Hlt.
        apply pr_unqualified0. exact Hj.
      * right. rewrite nth_error_app2 in Hj by exact Hge.
        destruct (j - length (http_requests t))%nat as [| d] eqn:Hd;
          simpl in Hj; [| destruct d; discriminate].
        injection Hj as <-.
        assert (j = length (http_requests t)) as -> by lia.
        split; [reflexivity |]. split; [lia |].
        rewrite Q, pr_http0. reflexivity.
Qed.

Lemma progress_failure (w wi : world) (i : nat) (t : list event) :
  progress w i wi t -> (i < 3)%nat ->
  attempt_qualifies E cfg content wi = false ->
  progress w (S i) (dingtalk_after_failure E cfg content i wi)
           (t ++ dingtalk_failure_events E cfg content i wi).
Proof.
  intros P Hi Hq.
  destruct (one_more_attempt w wi i t P) as (Hcalls & Hhttp & Hreqs & Hnth).
  destruct P.
  constructor; simpl;
    rewrite ?http_requests_app, ?http_requests_failure_events,
            ?sleeps_app, ?sleeps_failure_events,
            ?pauses_app, ?pauses_failure_events.
  - rewrite pr_trace0, app_assoc. reflexivity.
  - rewrite pr_clock0. lia.
  - exact Hhttp.
  - exact Hcalls.
  - exact Hreqs.
  - intros j req Hj.
    destruct (Hnth j req Hj) as [[_ H] | (_ & _ & H)];
      [exact H | rewrite H; exact Hq].
  - apply Forall_app. split; [exact pr_bounds0 |].
    destruct (i <? 2)%nat; repeat constructor;
      apply dingtalk_backoff_bounds.
  - rewrite pr_pauses0.
    replace (i =? 3)%nat with false by (symmetry; apply Nat.eqb_neq; lia).
    rewrite app_nil_r.
    destruct (Nat.ltb_spec i 2) as [Hlt | Hge];
      destruct (Nat.eqb_spec i 2) as [Heq | Hne]; try lia.
    + rewrite flat_map_app, app_nil_r. reflexivity.
    + rewrite app_nil_r. reflexivity.
  - rewrite length_app, pr_sleeps0.
    destruct (Nat.ltb_spec i 2) as [Hlt | Hge]; simpl; lia.
Qed.

(** What is observed of a finished run of [k] attempts with result [b]. *)
Definition run_summary (w : world) (b : bool) (w' : world)
           (t : list event) (k : nat) : Prop :=
  trace w' = trace w ++ t
  /\ (1 <= k <= 3)%nat
  /\ n_clock w' = (n_clock w + k)%nat
  /\ pauses t = IoClock :: flat_map (fun s => [IoSleep s; IoClock]) (sleeps t)
  /\ length (sleeps t) = (k - 1)%nat
  /\ Forall (fun s => (2 <= s <= 5)%Z) (sleeps t)
  /\ (forall req, In req (http_requests t) ->
        exists (i : nat) (sign : pystr),
          (i < k)%nat
          /\ generate_dingtalk_sign
               (str_of_int (clock_ms E (n_clock w + i)))
               (DINGTALK_SECRET cfg) = Ok sign
          /\ req = dingtalk_request cfg
                     (str_of_int (clock_ms E (n_clock w + i)))
                     sign content)
  /\ (length (http_requests t) <= k)%nat
  /\ n_http w' = (n_http w + length (http_requests t))%nat
  /\ (forall j req, nth_error (http_requests t) j = Some req ->
        (qualifies (http E (n_http w + j) req) = true
         <-> b = true /\ S j = length (http_requests t)))
  /\ (b = true ->
      exists pre req, t = pre ++ [EvHttp req; EvLog INFO DingTalkSent])
  /\ (b = false -> k = 3%nat).

Lemma progress_success (w wi : world) (i : nat) (t : list event) :
  progress w i wi t -> (i < 3)%nat ->
  attempt_qualifies E cfg content wi = true ->
  run_summary w true (dingtalk_after_success E cfg content wi)
              (t ++ dingtalk_success_events E cfg content wi) (S i).
Proof.
  intros P Hi Hq.
  destruct (one_more_attempt w wi i t P) as (Hcalls & Hhttp & Hreqs & Hnth).
  destruct (observe_success_events wi) as (Oh & Os & Op).
  destruct P.
  unfold run_summary.
  rewrite http_requests_app, sleeps_app, pauses_app, Oh, Os, Op, app_nil_r.
  simpl.
  split; [rewrite pr_trace0, app_assoc; reflexivity |].
  split; [lia |].
  split; [rewrite pr_clock0; lia |].
  split.
  { rewrite pr_pauses0.
    replace (i =? 3)%nat with false by (symmetry; apply Nat.eqb_neq; lia).
    rewrite app_nil_r. apply alternate_pauses. }
  split; [rewrite pr_sleeps0; lia |].
  split; [exact pr_bounds0 |].
  split; [exact Hreqs |].
  split; [exact Hcalls |].
  split; [exact Hhttp |].
  split.
  { intros j req Hj.
    destruct (Hnth j req Hj) as [[Hlt H] | (Hj' & Hlast & H)].
    - rewrite H. split; [discriminate |].
      intros [_ Hl]. rewrite length_app in Hl.
      destruct (attempt_cases wi) as [[C Q] | (r & sg & C & _)];
        [rewrite Q in Hq; discriminate |].
      rewrite C in Hl. simpl in Hl. lia.
    - rewrite H, Hq. split; [intros _; split; [reflexivity | exact Hlast] |].
      reflexivity. }
  split; [| discriminate].
  intros _. unfold dingtalk_success_events.
  destruct (attempt_cases wi) as [[C Q] | (r & sg & C & _)].
  - rewrite Q in Hq. discriminate.
  - rewrite C. exists (t ++ [EvClock]), r.
    rewrite <- app_assoc. reflexivity.
Qed.

Lemma progress_exhausted (w w3 : world) (t : list event) :
  progress w 3 w3 t -> run_summary w false w3 t 3.
Proof.
  intros P. destruct P. unfold run_summary.
  split; [exact pr_trace0 |].
  split; [lia |].
  split; [exact pr_clock0 |].
  split; [rewrite pr_pauses0; apply alternate_pauses |].
  split; [rewrite pr_sleeps0; reflexivity |].
  split; [exact pr_bounds0 |].
  split; [exact pr_requests0 |].
  split; [exact pr_calls0 |].
  split; [exact pr_http0 |].
  split.
  { intros j req Hj. rewrite (pr_unqualified0 j req Hj).
    split; [discriminate | intros [H _]; discriminate]. }
  split; [discriminate | reflexivity].
Qed.

(** The request sent by the attempt whose clock reading is the [c]-th
    one: it carries the timestamp of that reading and the signature of
    that timestamp; there is none when the signature cannot be
    computed. *)
Definition signed_requests (c : nat) : list request :=
  match generate_dingtalk_sign (str_of_int (clock_ms E c))
                               (DINGTALK_SECRET cfg) with
  | Ok sign => [dingtalk_request cfg (str_of_int (clock_ms E c)) sign content]
  | Raise _ => []
  end.

(** What attempt [i] of a run of [k] attempts does, from the world [w]
    the run starts in: it reads the clock, sends its request, and sleeps
    when another attempt follows. *)
Definition attempt_io (w : world) (k i : nat) : list io :=
  IoClock :: map (fun _ => IoHttp) (signed_requests (n_clock w + i))
  ++ (if (S i <? k)%nat
      then [IoSleep (dingtalk_backoff E (n_rand w + i))]
      else []).

Lemma calls_signed_requests (x : world) :
  http_requests (attempt_calls E cfg content x) = signed_requests (n_clock x)
  /\ io_of (attempt_calls E cfg content x)
     = map (fun _ => IoHttp) (signed_requests (n_clock x)).
Proof.
  unfold attempt_calls, attempt_request, attempt_sign, attempt_timestamp,
    signed_requests.
  destruct (generate_dingtalk_sign _ _); split; reflexivity.
Qed.

Lemma io_failure_events (a : nat) (x : world) :
  io_of (dingtalk_failure_events E cfg content a x) =
  IoClock :: map (fun _ => IoHttp) (signed_requests (n_clock x))
  ++ (if (a <? 2)%nat then [IoSleep (dingtalk_backoff E (n_rand x))] else []).
Proof.
  unfold dingtalk_failure_events, dingtalk_backoff_events.
  cbn [io_of]. rewrite io_of_app, (proj2 (calls_signed_requests x)).
  destruct (a <? 2)%nat; reflexivity.
Qed.

Lemma io_success_events (x : world) :
  io_of (dingtalk_success_events E cfg content x) =
  IoClock :: map (fun _ => IoHttp) (signed_requests (n_clock x)).
Proof.
  unfold dingtalk_success_events.
  cbn [io_of]. rewrite io_of_app, (proj2 (calls_signed_requests x)).
  cbn [io_of]. rewrite app_nil_r. reflexivity.
Qed.

(** The calls, the pauses and their order in a run of [k] attempts:
    attempt [i] sends the request of clock reading [i], and the pause
    after it is draw [i]. *)
Definition run_order (w : world) (t : list event) (k : nat) : Prop :=
  http_requests t
  = flat_map (fun i => signed_requests (n_clock w + i)) (seq 0 k)
  /\ sleeps t
     = map (fun i => dingtalk_backoff E (n_rand w + i)) (seq 0 (k - 1))
  /\ io_of t = flat_map (attempt_io w k) (seq 0 k).

Ltac run_order_tac :=
  unfold run_order, attempt_io;
  rewrite ?http_requests_app, ?sleeps_app, ?io_of_app,
          ?http_requests_failure_events, ?sleeps_failure_events,
          ?io_failure_events, ?io_success_events;
  repeat match goal with
         | |- context [dingtalk_success_events E cfg content ?x] =>
             let Oh := fresh "Oh" in
             let Os := fresh "Os" in
             destruct (observe_success_events x) as (Oh & Os & _);
             rewrite ?Oh, ?Os; clear Oh Os
         end;
  rewrite ?(fun x => proj1 (calls_signed_requests x));
  cbn [dingtalk_after_failure n_clock n_rand Nat.ltb Nat.leb
       seq flat_map map Nat.sub app http_requests sleeps io_of];
  rewrite ?Nat.add_succ_r, ?Nat.add_0_r, ?app_nil_r;
  repeat (progress (rewrite <- ?app_assoc; cbn [app]));
  repeat split; reflexivity.

Lemma run_order_1 (w : world) :
  run_order w ([] ++ dingtalk_success_events E cfg content w) 1.
Proof. run_order_tac. Qed.

Lemma run_order_2 (w : world) :
  let w1 := dingtalk_after_failure E cfg content 0 w in
  run_order w (([] ++ dingtalk_failure_events E cfg content 0 w)
               ++ dingtalk_success_events E cfg content w1) 2.
Proof. intros w1. subst w1. run_order_tac. Qed.

Lemma run_order_3 (w : world) :
  let w1 := dingtalk_after_failure E cfg content 0 w in
  let w2 := dingtalk_after_failure E cfg content 1 w1 in
  run_order w ((([] ++ dingtalk_failure_events E cfg content 0 w)
                ++ dingtalk_failure_events E cfg content 1 w1)
               ++ dingtalk_success_events E cfg content w2) 3.
Proof. intros w1 w2. subst w1 w2. run_order_tac. Qed.

Lemma run_order_exhausted (w : world) :
  let w1 := dingtalk_after_failure E cfg content 0 w in
  let w2 := dingtalk_after_failure E cfg content 1 w1 in
  run_order w ((([] ++ dingtalk_failure_events E cfg content 0 w)
                ++ dingtalk_failure_events E cfg content 1 w1)
               ++ dingtalk_failure_events E cfg content 2 w2) 3.
Proof. intros w1 w2. subst w1 w2. run_order_tac. Qed.

(** C8. With a webhook, [push_dingtalk] makes [k] attempts, 1 <= k <= 3.
    Attempt [i] reads the clock, computes the signature of that reading
    and sends exactly one request, which carries that timestamp and that
    signature (no request when the signature cannot be computed); when
    another attempt follows it then sleeps for the [i]-th random draw,
    of 2 to 5 seconds, and nothing follows the last attempt.  The answer
    to a call qualifies exactly when the result is [True] and the call
    is the last one; the result is [False] only after 3 attempts.  The
    sender never raises. *)
Theorem push_dingtalk_three_attempts (w : world)
        (Hhook : truthy (DINGTALK_WEBHOOK cfg) = true) :
  exists (b : bool) (w' : world) (t : list event) (k : nat),
    push_dingtalk E cfg content w = (Ok (PyBool b), w')
    /\ http_requests t
       = flat_map (fun i => signed_requests (n_clock w + i)) (seq 0 k)
    /\ sleeps t
       = map (fun i => dingtalk_backoff E (n_rand w + i)) (seq 0 (k - 1))
    /\ io_of t = flat_map (attempt_io w k) (seq 0 k)
    /\ trace w' = trace w ++ t
    /\ (1 <= k <= 3)%nat
    /\ n_clock w' = (n_clock w + k)%nat
    /\ pauses t = IoClock :: flat_map (fun s => [IoSleep s; IoClock]) (sleeps t)
    /\ length (sleeps t) = (k - 1)%nat
    /\ Forall (fun s => (2 <= s <= 5)%Z) (sleeps t)
    /\ (forall req, In req (http_requests t) ->
          exists (i : nat) (sign : pystr),
            (i < k)%nat
            /\ generate_dingtalk_sign
                 (str_of_int (clock_ms E (n_clock w + i)))
                 (DINGTALK_SECRET cfg) = Ok sign
            /\ req = dingtalk_request cfg
                       (str_of_int (clock_ms E (n_clock w + i)))
                       sign content)
    /\ (length (http_requests t) <= k)%nat
    /\ n_http w' = (n_http w + length (http_requests t))%nat
    /\ (forall j req, nth_error (http_requests t) j = Some req ->
          (qualifies (http E (n_http w + j) req) = true
           <-> b = true /\ S j = length (http_requests t)))
    /\ (b = true ->
        exists pre req, t = pre ++ [EvHttp req; EvLog INFO DingTalkSent])
    /\ (b = false -> k = 3%nat).
Proof.
  rewrite (push_dingtalk_unroll E cfg content w Hhook). cbv zeta.
  pose proof (progress_start w) as P0.
  pose proof (run_order_1 w) as (A1 & B1 & C1).
  pose proof (run_order_2 w) as (A2 & B2 & C2).
  pose proof (run_order_3 w) as (A3 & B3 & C3).
  pose proof (run_order_exhausted w) as (A4 & B4 & C4).
  cbv zeta in A2, B2, C2, A3, B3, C3, A4, B4, C4.
  destruct (attempt_qualifies E cfg content w) eqn:Q0.
  { eexists; eexists; eexists; exists 1%nat.
    split; [reflexivity |].
    split; [exact A1 |]. split; [exact B1 |]. split; [exact C1 |].
    exact (progress_success w w 0 [] P0 ltac:(lia) Q0). }
  pose proof (progress_failure w w 0 [] P0 ltac:(lia) Q0) as P1.
  destruct (attempt_qualifies E cfg content
              (dingtalk_after_failure E cfg content 0 w)) eqn:Q1.
  { eexists; eexists; eexists; exists 2%nat.
    split; [reflexivity |].
    split; [exact A2 |]. split; [exact B2 |]. split; [exact C2 |].
    exact (progress_success _ _ 1 _ P1 ltac:(lia) Q1). }
  pose proof (progress_failure _ _ 1 _ P1 ltac:(lia) Q1) as P2.
  destruct (attempt_qualifies E cfg content
              (dingtalk_after_failure E cfg content 1 _)) eqn:Q2.
  { eexists; eexists; eexists; exists 3%nat.
    split; [reflexivity |].
    split; [exact A3 |]. split; [exact B3 |]. split; [exact C3 |].
    exact (progress_success _ _ 2 _ P2 ltac:(lia) Q2). }
  pose proof (progress_failure _ _ 2 _ P2 ltac:(lia) Q2) as P3.
  eexists; eexists; eexists; exists 3%nat.
  split; [reflexivity |].
  split; [exact A4 |]. split; [exact B4 |]. split; [exact C4 |].
  exact (progress_exhausted _ _ _ P3).
Qed.

End DingTalkClaims.

Section DingTalkSuccess.
Variable E : env.
Variable cfg : config.
Variable content : pystr.

Lemma qualifies_inv (h : http_result) :
  qualifies h = true ->
  exists (resp : response) (d : list (pystr * pyval)),
    h = Resp resp
    /\ is_error_status (status_code resp) = false
    /\ json_body resp = Some (PyDict d)
    /\ py_eq_int0 (dict_get d (lit "errcode")) = true.
Proof.
  destruct h as [resp | e]; simpl; [| discriminate].
  intros H. apply andb_true_iff in H. destruct H as [Hs Hj].
  apply negb_true_iff in Hs.
  destruct (json_body resp) as [[| | | | | | d] |] eqn:Hb; try discriminate.
  exists resp, d.
  split; [reflexivity | split; [exact Hs | split; [exact Hb | exact Hj]]].
Qed.

(** A successful attempt ends with its HTTP call and the success line,
    and the answer to that call qualifies. *)
Lemma success_ends_with_call (w wi : world) (i : nat) (t : list event) :
  progress E cfg content w i wi t ->
  attempt_qualifies E cfg content wi = true ->
  exists (pre : list event) (req : request) (resp : response)
         (d : list (pystr * pyval)),
    trace (dingtalk_after_success E cfg content wi)
      = trace w ++ pre ++ [EvHttp req; EvLog INFO DingTalkSent]
    /\ http E (Nat.pred (n_http (dingtalk_after_success E cfg content wi)))
            req = Resp resp
    /\ is_error_status (status_code resp) = false
    /\ json_body resp = Some (PyDict d)
    /\ py_eq_int0 (dict_get d (lit "errcode")) = true.
Proof.
  intros P Hq. destruct P.
  destruct (attempt_cases E cfg content wi)
    as [[C Q] | (req & sg & C & S & R & Q)];
    [rewrite Q in Hq; discriminate |].
  rewrite Q in Hq.
  destruct (qualifies_inv _ Hq) as (resp & d & Hh & Hs & Hj & He).
  exists (t ++ [EvClock]), req, resp, d.
  unfold dingtalk_after_success, dingtalk_success_events. rewrite C. simpl.
  rewrite Nat.add_1_r. simpl.
  split; [rewrite pr_trace0, <- !app_assoc; reflexivity |].
  repeat split; assumption.
Qed.

(** A rejected answer: HTTP 200 with [errcode] 1 in the body. *)
Lemma rejected_answer (w0 : world) (sign : pystr) (resp : response)
      (d : list (pystr * pyval)) :
  generate_dingtalk_sign (str_of_int (clock_ms E (n_clock w0)))
                         (DINGTALK_SECRET cfg) = Ok sign ->
  http E (n_http w0)
       (dingtalk_request cfg (str_of_int (clock_ms E (n_clock w0)))
                         sign content) = Resp resp ->
  status_code resp = 200%Z ->
  json_body resp = Some (PyDict d) ->
  dict_get d (lit "errcode") = PyInt 1 ->
  attempt_qualifies E cfg content w0 = false
  /\ forall a : nat,
       dingtalk_after_failure E cfg content a w0 =
       mkWorld (S (n_http w0))
               (if (a <? 2)%nat then S (n_rand w0) else n_rand w0)
               (S (n_clock w0))
               (trace w0 ++
                [EvClock;
                 EvHttp (dingtalk_request cfg
                           (str_of_int (clock_ms E (n_clock w0)))
                           sign content);
                 EvLog ERROR (DingTalkRejected (text resp))]
                ++ (if (a <? 2)%nat
                    then [EvLog INFO
                            (DingTalkRetryIn
                               (dingtalk_backoff E (n_rand w0)));
                          EvSleep (dingtalk_backoff E (n_rand w0))]
                    else [])).
Proof.
  intros Hsign Hresp Hstatus Hbody Hcode.
  unfold attempt_qualifies, dingtalk_after_failure, dingtalk_failure_events,
    dingtalk_backoff_events, attempt_failure_msg, attempt_calls,
    attempt_request, attempt_sign, attempt_timestamp.
  rewrite Hsign, Hresp. simpl. rewrite Hstatus, Hbody, Hcode. simpl.
  split; [reflexivity |].
  intros a. rewrite Nat.add_1_r. reflexivity.
Qed.

(** C3 (as the code has it). [push_dingtalk] returns [True] only after
    a call whose response [raise_for_status] accepts (a status outside
    400..599) and whose JSON body has [errcode == 0]; that call is the
    last thing it does.  A response with status 200 and [errcode] 1 is a
    failure at every attempt: it is logged as rejected, the attempt falls
    through to the next one, with a pause when attempts remain, and after
    such a first answer a second attempt begins. *)
Theorem push_dingtalk_success_condition (w : world) :
  (forall w' : world,
      push_dingtalk E cfg content w = (Ok (PyBool true), w') ->
      exists (pre : list event) (req : request) (resp : response)
             (d : list (pystr * pyval)),
        trace w' = trace w ++ pre ++ [EvHttp req; EvLog INFO DingTalkSent]
        /\ http E (Nat.pred (n_http w')) req = Resp resp
        /\ is_error_status (status_code resp) = false
        /\ json_body resp = Some (PyDict d)
        /\ py_eq_int0 (dict_get d (lit "errcode")) = true)
  /\ (forall (a : nat) (w0 : world) (sign : pystr) (resp : response)
             (d : list (pystr * pyval)),
        generate_dingtalk_sign (str_of_int (clock_ms E (n_clock w0)))
                               (DINGTALK_SECRET cfg) = Ok sign ->
        http E (n_http w0)
             (dingtalk_request cfg (str_of_int (clock_ms E (n_clock w0)))
                               sign content) = Resp resp ->
        status_code resp = 200%Z ->
        json_body resp = Some (PyDict d) ->
        dict_get d (lit "errcode") = PyInt 1 ->
        dingtalk_attempt E cfg content a w0 =
          (Ok Next,
           mkWorld (S (n_http w0))
                   (if (a <? 2)%nat then S (n_rand w0) else n_rand w0)
                   (S (n_clock w0))
                   (trace w0 ++
                    [EvClock;
                     EvHttp (dingtalk_request cfg
                               (str_of_int (clock_ms E (n_clock w0)))
                               sign content);
                     EvLog ERROR (DingTalkRejected (text resp))]
                    ++ (if (a <? 2)%nat
                        then [EvLog INFO
                                (DingTalkRetryIn
                                   (dingtalk_backoff E (n_rand w0)));
                              EvSleep (dingtalk_backoff E (n_rand w0))]
                        else []))))
  /\ (forall (sign : pystr) (resp : response) (d : list (pystr * pyval)),
        truthy (DINGTALK_WEBHOOK cfg) = true ->
        generate_dingtalk_sign (str_of_int (clock_ms E (n_clock w)))
                               (DINGTALK_SECRET cfg) = Ok sign ->
        http E (n_http w)
             (dingtalk_request cfg (str_of_int (clock_ms E (n_clock w)))
                               sign content) = Resp resp ->
        status_code resp = 200%Z ->
        json_body resp = Some (PyDict d) ->
        dict_get d (lit "errcode") = PyInt 1 ->
        exists (b : bool) (w' : world) (rest : list event),
          push_dingtalk E cfg content w = (Ok (PyBool b), w')
          /\ trace w' =
               trace w ++
               [EvClock;
                EvHttp (dingtalk_request cfg
                          (str_of_int (clock_ms E (n_clock w)))
                          sign content);
                EvLog ERROR (DingTalkRejected (text resp));
                EvLog INFO (DingTalkRetryIn (dingtalk_backoff E (n_rand w)));
                EvSleep (dingtalk_backoff E (n_rand w));
                EvClock] ++ rest
          /\ (2 <= dingtalk_backoff E (n_rand w) <= 5)%Z).
Proof.
  split; [| split].
  - intros w' Hrun.
    destruct (truthy (DINGTALK_WEBHOOK cfg)) eqn:Hhook.
    + rewrite (push_dingtalk_unroll E cfg content w Hhook) in Hrun.
      cbv zeta in Hrun.
      pose proof (progress_start E cfg content w) as P0.
      destruct (attempt_qualifies E cfg content w) eqn:Q0.
      { injection Hrun as <-.
        exact (success_ends_with_call w w 0 [] P0 Q0). }
      pose proof (progress_failure E cfg content w w 0 [] P0 ltac:(lia) Q0)
        as P1.
      destruct (attempt_qualifies E cfg content
                  (dingtalk_after_failure E cfg content 0 w)) eqn:Q1.
      { injection Hrun as <-.
        exact (success_ends_with_call _ _ 1 _ P1 Q1). }
      pose proof (progress_failure E cfg content _ _ 1 _ P1 ltac:(lia) Q1)
        as P2.
      destruct (attempt_qualifies E cfg content
                  (dingtalk_after_failure E cfg content 1 _)) eqn:Q2.
      { injection Hrun as <-.
        exact (success_ends_with_call _ _ 2 _ P2 Q2). }
      discriminate.
    + rewrite push_dingtalk_unfold, Hhook in Hrun. simpl in Hrun.
      discriminate.
  - intros a w0 sign resp d Hsign Hresp Hstatus Hbody Hcode.
    destruct (rejected_answer w0 sign resp d Hsign Hresp Hstatus Hbody Hcode)
      as [Hq Hw].
    rewrite dingtalk_attempt_spec, Hq, Hw. reflexivity.
  - intros sign resp d Hhook Hsign Hresp Hstatus Hbody Hcode.
    destruct (rejected_answer w sign resp d Hsign Hresp Hstatus Hbody Hcode)
      as [Hq Hw].
    rewrite (push_dingtalk_unroll E cfg content w Hhook). cbv zeta.
    rewrite Hq, (Hw 0%nat). simpl Nat.ltb. cbv iota.
    match goal with
    | |- context [attempt_qualifies E cfg content ?x] => set (w1 := x)
    end.
    destruct (attempt_qualifies E cfg content w1).
    { exists true. eexists.
      exists (attempt_calls E cfg content w1 ++ [EvLog INFO DingTalkSent]).
      split; [reflexivity |].
      split; [| apply dingtalk_backoff_bounds].
      unfold dingtalk_after_success, dingtalk_success_events, w1. simpl.
      rewrite <- !app_assoc. reflexivity. }
    destruct (attempt_qualifies E cfg content
                (dingtalk_after_failure E cfg content 1 w1)).
    { exists true. eexists. eexists.
      split; [reflexivity |].
      split; [| apply dingtalk_backoff_bounds].
      unfold dingtalk_after_success, dingtalk_success_events,
        dingtalk_after_failure, dingtalk_failure_events, w1.
      simpl. rewrite <- !app_assoc. simpl. reflexivity. }
    exists false. eexists. eexists.
    split; [reflexivity |].
    split; [| apply dingtalk_backoff_bounds].
    unfold dingtalk_after_failure, dingtalk_failure_events, w1.
    simpl. rewrite <- !app_assoc. simpl. reflexivity.
Qed.

End DingTalkSuccess.

(** *** Concrete DingTalk transports *)

(** The body [{"errcode":1,"errmsg":"x"}] with status 200. *)
Definition rejected_200 : response :=
  mkResponse 200
    [123; 34; 101; 114; 114; 99; 111; 100; 101; 34; 58; 49; 44; 34; 101;
     114; 114; 109; 115; 103; 34; 58; 34; 120; 34; 125]%N
    (Some (PyDict [(lit "errcode", PyInt 1); (lit "errmsg", PyStr (lit "x"))])).

(** The body [{"errcode":0}] with status 300 (Multiple Choices): not a
    2xx status, not a redirect that [requests] follows, and not a status
    for which [raise_for_status] raises. *)
Definition accepted_300 : response :=
  mkResponse 300
    [123; 34; 101; 114; 114; 99; 111; 100; 101; 34; 58; 48; 125]%N
    (Some (PyDict [(lit "errcode", PyInt 0)])).

Definition rejecting_env : env :=
  mkEnv (fun _ _ => Resp rejected_200)
        (fun n => Z.of_nat n) (fun n => (1700000000000 + Z.of_nat n)%Z).

Definition multiple_choices_env : env :=
  mkEnv (fun _ _ => Resp accepted_300)
        (fun _ => 0%Z) (fun _ => 1700000000000%Z).

(** A provider that rejects every message: three calls, two pauses. *)
Example push_dingtalk_rejected_three_times :
  let run := push_dingtalk rejecting_env dingtalk_cfg (lit "hi") world0 in
  fst run = Ok (PyBool false)
  /\ io_of (trace (snd run)) =
       [IoClock; IoHttp; IoSleep 2; IoClock; IoHttp; IoSleep 3;
        IoClock; IoHttp]
  /\ map url (http_requests (trace (snd run))) =
       [lit "https://oapi.dingtalk.com/robot/send?access_token=t&timestamp=1700000000000&sign=d043yCasNZ+KC1N0lrVg+Aan0gEIKPvRfzRqMlUUwzk=";
        lit "https://oapi.dingtalk.com/robot/send?access_token=t&timestamp=1700000000001&sign=6bspvjDgSQ1pXQkukuSijXlo4KDFLDM9Mg+jls8raME=";
        lit "https://oapi.dingtalk.com/robot/send?access_token=t&timestamp=1700000000002&sign=zItsNHZtPcjn448MMiE72uUfx4t31UF+B1pU0LXg2AQ="].
Proof. vm_compute. repeat split. Qed.

(** C3, counterexample. A response with status 300 and [errcode] 0 makes
    [push_dingtalk] return [True] after one call, although 300 is not a
    2xx status. *)
Lemma push_dingtalk_accepts_status_300 :
  let run := push_dingtalk multiple_choices_env dingtalk_cfg (lit "hi")
                           world0 in
  (forall n r, http multiple_choices_env n r = Resp accepted_300)
  /\ status_code accepted_300 = 300%Z
  /\ ~ (200 <= status_code accepted_300 < 300)%Z
  /\ fst run = Ok (PyBool true)
  /\ io_of (trace (snd run)) = [IoClock; IoHttp]
  /\ n_http (snd run) = 1%nat.
Proof.
  cbv zeta.
  split; [intros n r; reflexivity |].
  split; [reflexivity |].
  split; [simpl; lia |].
  vm_compute. repeat split.
Qed.

Lemma push_dingtalk_success_condition_witness :
  exists (b : bool) (w' : world) (rest : list event),
    push_dingtalk rejecting_env dingtalk_cfg (lit "hi") world0
      = (Ok (PyBool b), w')
    /\ trace w' =
         trace world0 ++
         [EvClock;
          EvHttp (dingtalk_request dingtalk_cfg
                    (str_of_int (clock_ms rejecting_env (n_clock world0)))
                    (lit "d043yCasNZ+KC1N0lrVg+Aan0gEIKPvRfzRqMlUUwzk=")
                    (lit "hi"));
          EvLog ERROR (DingTalkRejected (text rejected_200));
          EvLog INFO
            (DingTalkRetryIn (dingtalk_backoff rejecting_env (n_rand world0)));
          EvSleep (dingtalk_backoff rejecting_env (n_rand world0));
          EvClock] ++ rest
    /\ (2 <= dingtalk_backoff rejecting_env (n_rand world0) <= 5)%Z.
Proof.
  apply (proj2 (proj2 (push_dingtalk_success_condition
                         rejecting_env dingtalk_cfg (lit "hi") world0))
           (lit "d043yCasNZ+KC1N0lrVg+Aan0gEIKPvRfzRqMlUUwzk=")
           rejected_200
           [(lit "errcode", PyInt 1); (lit "errmsg", PyStr (lit "x"))]);
    vm_compute; reflexivity.
Defined.

Lemma push_dingtalk_three_attempts_witness :
  exists (b : bool) (w' : world) (t : list event) (k : nat),
    push_dingtalk rejecting_env dingtalk_cfg (lit "hi") world0
      = (Ok (PyBool b), w')
    /\ http_requests t
       = flat_map (fun i => signed_requests rejecting_env dingtalk_cfg
                                            (lit "hi") (n_clock world0 + i))
                  (seq 0 k)
    /\ sleeps t
       = map (fun i => dingtalk_backoff rejecting_env (n_rand world0 + i))
             (seq 0 (k - 1))
    /\ io_of t
       = flat_map (attempt_io rejecting_env dingtalk_cfg (lit "hi") world0 k)
                  (seq 0 k)
    /\ run_summary rejecting_env dingtalk_cfg (lit "hi") world0 b w' t k.
Proof.
  apply (push_dingtalk_three_attempts
           rejecting_env dingtalk_cfg (lit "hi") world0).
  reflexivity.
Defined.

(* ================================================================== *)
(** ** Further properties: the signature *)

Section SignatureShape.
Local Open Scope Z_scope.

Definition is_byte (b : Z) : Prop := 0 <= b < 256.

(** The characters [base64.b64encode] can produce. *)
Definition b64_alphabet (c : Z) : bool :=
  ((65 <=? c) && (c <=? 90)) || ((97 <=? c) && (c <=? 122))
  || ((48 <=? c) && (c <=? 57)) || (c =? 43) || (c =? 47) || (c =? 61).

Definition all_bytes : list Z := map Z.of_nat (seq 0 256).

Lemma in_all_bytes (b : Z) : is_byte b -> In b all_bytes.
Proof.
  intros Hb. unfold all_bytes.
  replace b with (Z.of_nat (Z.to_nat b)) by (unfold is_byte in Hb; lia).
  apply in_map, in_seq. unfold is_byte in Hb. lia.
Qed.

(** A check on every byte, or on every pair of bytes, by enumeration. *)
Lemma for_all_bytes (P : Z -> bool) :
  forallb P all_bytes = true -> forall b, is_byte b -> P b = true.
Proof.
  intros H b Hb. rewrite forallb_forall in H. apply H, in_all_bytes, Hb.
Qed.

Lemma for_all_byte_pairs (P : Z -> Z -> bool) :
  forallb (fun a => forallb (P a) all_bytes) all_bytes = true ->
  forall a b, is_byte a -> is_byte b -> P a b = true.
Proof.
  intros H a b Ha Hb. rewrite forallb_forall in H.
  apply (for_all_bytes (P a)); [| exact Hb].
  apply H, in_all_bytes, Ha.
Qed.

Lemma b64_first (a : Z) :
  is_byte a -> b64_alphabet (Base64.b64char (Z.shiftr a 2)) = true.
Proof.
  apply (for_all_bytes
           (fun a => b64_alphabet (Base64.b64char (Z.shiftr a 2)))).
  vm_compute. reflexivity.
Qed.

Lemma b64_last (c : Z) :
  is_byte c -> b64_alphabet (Base64.b64char (Z.land c 63)) = true.
Proof.
  apply (for_all_bytes
           (fun c => b64_alphabet (Base64.b64char (Z.land c 63)))).
  vm_compute. reflexivity.
Qed.

Lemma b64_pad1 (a : Z) :
  is_byte a ->
  b64_alphabet (Base64.b64char (Z.shiftl (Z.land a 3) 4)) = true.
Proof.
  apply (for_all_bytes
           (fun a => b64_alphabet
                       (Base64.b64char (Z.shiftl (Z.land a 3) 4)))).
  vm_compute. reflexivity.
Qed.

Lemma b64_pad2 (b : Z) :
  is_byte b ->
  b64_alphabet (Base64.b64char (Z.shiftl (Z.land b 15) 2)) = true.
Proof.
  apply (for_all_bytes
           (fun b => b64_alphabet
                       (Base64.b64char (Z.shiftl (Z.land b 15) 2)))).
  vm_compute. reflexivity.
Qed.

Lemma b64_second (a b : Z) :
  is_byte a -> is_byte b ->
  b64_alphabet
    (Base64.b64char (Z.lor (Z.shiftl (Z.land a 3) 4) (Z.shiftr b 4)))
  = true.
Proof.
  apply (for_all_byte_pairs
           (fun a b =>
              b64_alphabet
                (Base64.b64char
                   (Z.lor (Z.shiftl (Z.land a 3) 4) (Z.shiftr b 4))))).
  vm_compute. reflexivity.
Qed.

Lemma b64_third (b c : Z) :
  is_byte b -> is_byte c ->
  b64_alphabet
    (Base64.b64char (Z.lor (Z.shiftl (Z.land b 15) 2) (Z.shiftr c 6)))
  = true.
Proof.
  apply (for_all_byte_pairs
           (fun b c =>
              b64_alphabet
                (Base64.b64char
                   (Z.lor (Z.shiftl (Z.land b 15) 2) (Z.shiftr c 6))))).
  vm_compute. reflexivity.
Qed.

(** Induction on a list three elements at a time, as [b64encode] reads
    it. *)
Lemma list_ind3 (A : Type) (P : list A -> Prop) :
  P [] -> (forall a, P [a]) -> (forall a b, P [a; b]) ->
  (forall a b c l, P l -> P (a :: b :: c :: l)) ->
  forall l, P l.
Proof.
  intros H0 H1 H2 H3.
  fix IH 1. intros [| a [| b [| c l]]].
  - exact H0.
  - apply H1.
  - apply H2.
  - apply H3, IH.
Qed.

Lemma b64encode_length (l : pybytes) :
  Z.of_nat (length (Base64.b64encode l))
  = 4 * ((Z.of_nat (length l) + 2) / 3).
Proof.
  induction l as [| a | a b | a b c l IH] using list_ind3;
    try reflexivity.
  change (Base64.b64encode (a :: b :: c :: l))
    with (Base64.b64char (Z.shiftr a 2)
          :: Base64.b64char (Z.lor (Z.shiftl (Z.land a 3) 4) (Z.shiftr b 4))
          :: Base64.b64char (Z.lor (Z.shiftl (Z.land b 15) 2) (Z.shiftr c 6))
          :: Base64.b64char (Z.land c 63)
          :: Base64.b64encode l).
  cbn [length].
  replace (Z.of_nat (S (S (S (length l)))) + 2)
    with (1 * 3 + (Z.of_nat (length l) + 2)) by lia.
  rewrite Z.div_add_l by lia. lia.
Qed.

Lemma b64encode_alphabet (l : pybytes) :
  Forall is_byte l ->
  Forall (fun c => b64_alphabet c = true) (Base64.b64encode l).
Proof.
  induction l as [| a | a b | a b c l IH] using list_ind3; intros Hl.
  - constructor.
  - inversion_clear Hl.
    repeat constructor; auto using b64_first, b64_pad1.
  - inversion_clear Hl as [| ? ? Ha Hl']. inversion_clear Hl'.
    repeat constructor; auto using b64_first, b64_second, b64_pad2.
  - inversion_clear Hl as [| ? ? Ha Hl1].
    inversion_clear Hl1 as [| ? ? Hb Hl2].
    inversion_clear Hl2 as [| ? ? Hc Hl3].
    change (Base64.b64encode (a :: b :: c :: l))
      with (Base64.b64char (Z.shiftr a 2)
            :: Base64.b64char
                 (Z.lor (Z.shiftl (Z.land a 3) 4) (Z.shiftr b 4))
            :: Base64.b64char
                 (Z.lor (Z.shiftl (Z.land b 15) 2) (Z.shiftr c 6))
            :: Base64.b64char (Z.land c 63)
            :: Base64.b64encode l).
    repeat constructor;
      auto using b64_first, b64_second, b64_third, b64_last.
Qed.

Lemma last_app_nonempty (A : Type) (l1 l2 : list A) (d : A) :
  l2 <> [] -> last (l1 ++ l2) d = last l2 d.
Proof.
  intros Hne. induction l1 as [| x l1 IH]; [reflexivity |].
  cbn [app]. destruct (l1 ++ l2) eqn:Happ.
  - destruct l1; [simpl in Happ; contradiction | discriminate].
  - exact IH.
Qed.

(** With one byte left over after the triples, or two, the text ends
    with the padding character. *)
Lemma b64encode_padded (l : pybytes) :
  Z.of_nat (length l) mod 3 <> 0 ->
  last (Base64.b64encode l) 0 = 61.
Proof.
  induction l as [| a | a b | a b c l IH] using list_ind3; intros Hl.
  - exfalso. apply Hl. reflexivity.
  - reflexivity.
  - reflexivity.
  - change (Base64.b64encode (a :: b :: c :: l))
      with ([Base64.b64char (Z.shiftr a 2);
             Base64.b64char
               (Z.lor (Z.shiftl (Z.land a 3) 4) (Z.shiftr b 4));
             Base64.b64char
               (Z.lor (Z.shiftl (Z.land b 15) 2) (Z.shiftr c 6));
             Base64.b64char (Z.land c 63)]
            ++ Base64.b64encode l).
    assert (Hl' : Z.of_nat (length l) mod 3 <> 0).
    { intros H. apply Hl. cbn [length].
      replace (Z.of_nat (S (S (S (length l)))))
        with (Z.of_nat (length l) + 1 * 3) by lia.
      rewrite Z.mod_add by lia. exact H. }
    rewrite last_app_nonempty; [apply IH, Hl' |].
    destruct l as [| x [| y [| z l']]]; try discriminate.
    exfalso. apply Hl'. reflexivity.
Qed.

(** The digest always has 32 bytes. *)
Lemma be_bytes_length (n : nat) (x : Z) : length (Sha256.be_bytes n x) = n.
Proof.
  revert x. induction n as [| n IH]; intros x; simpl; [reflexivity |].
  rewrite length_app, IH. simpl. lia.
Qed.

Lemma be_bytes_are_bytes (n : nat) (x : Z) :
  Forall is_byte (Sha256.be_bytes n x).
Proof.
  revert x. induction n as [| n IH]; intros x; simpl; [constructor |].
  apply Forall_app. split; [apply IH |].
  constructor; [| constructor].
  unfold is_byte. change 255 with (Z.ones 8).
  rewrite Z.land_ones by lia. apply Z.mod_pos_bound. lia.
Qed.

Lemma compress_length (h block : list Z) :
  length h = 8%nat -> length (Sha256.compress h block) = 8%nat.
Proof.
  intros Hh. unfold Sha256.compress.
  rewrite length_map, length_combine, Hh. reflexivity.
Qed.

Lemma blocks_length (n : nat) (h bs : list Z) :
  length h = 8%nat -> length (Sha256.blocks n h bs) = 8%nat.
Proof.
  revert h bs. induction n as [| n IH]; intros h bs Hh; simpl.
  - exact Hh.
  - apply IH, compress_length, Hh.
Qed.

Lemma flat_map_length_const (A B : Type) (f : A -> list B) (c : nat)
      (l : list A) :
  (forall x, length (f x) = c) ->
  length (flat_map f l) = (c * length l)%nat.
Proof.
  intros Hf. induction l as [| x l IH]; simpl.
  - lia.
  - rewrite length_app, Hf, IH. lia.
Qed.

Lemma sha256_length (msg : pybytes) : length (Sha256.sha256 msg) = 32%nat.
Proof.
  unfold Sha256.sha256.
  rewrite (flat_map_length_const _ _ (Sha256.be_bytes 4) 4)
    by (intros x; apply be_bytes_length).
  rewrite blocks_length by reflexivity. reflexivity.
Qed.

Lemma sha256_bytes (msg : pybytes) : Forall is_byte (Sha256.sha256 msg).
Proof.
  unfold Sha256.sha256. apply Forall_flat_map.
  apply Forall_forall. intros x _. apply be_bytes_are_bytes.
Qed.

End SignatureShape.

Section SignatureErrors.

(** A Unicode scalar value: a code point that is not a surrogate.  These
    are the code points the strict UTF-8 codec accepts. *)
Definition is_scalar (c : N) : bool :=
  ((c <? 55296) || ((57343 <? c) && (c <? 1114112)))%N.

(** The characters of base64 text, as code points. *)
Definition is_b64_char (c : N) : bool := b64_alphabet (Z.of_N c).

Lemma utf8_of_codepoint_scalar (c : N) :
  is_scalar c = true <-> utf8_of_codepoint c <> None.
Proof.
  unfold is_scalar, utf8_of_codepoint.
  destruct (Z.ltb_spec (Z.of_N c) 128);
    destruct (Z.ltb_spec (Z.of_N c) 2048);
    destruct (Z.ltb_spec (Z.of_N c) 65536);
    destruct (Z.ltb_spec (Z.of_N c) 1114112);
    destruct (Z.leb_spec 55296 (Z.of_N c));
    destruct (Z.leb_spec (Z.of_N c) 57343);
    destruct (N.ltb_spec c 55296);
    destruct (N.ltb_spec 57343 c);
    destruct (N.ltb_spec c 1114112);
    simpl; try lia; split; intros; try discriminate; try congruence.
Qed.

Lemma encode_utf8_scalar (s : pystr) :
  forallb is_scalar s = true <-> encode_utf8 s <> None.
Proof.
  induction s as [| c s IH]; simpl.
  - split; [discriminate | reflexivity].
  - rewrite andb_true_iff, IH, utf8_of_codepoint_scalar.
    destruct (utf8_of_codepoint c), (encode_utf8 s);
      split; intros; try tauto; try discriminate; intuition congruence.
Qed.

Lemma encode_utf8_app (a b : pystr) :
  encode_utf8 (a ++ b) =
  match encode_utf8 a, encode_utf8 b with
  | Some x, Some y => Some (x ++ y)
  | _, _ => None
  end.
Proof.
  induction a as [| c a IH]; simpl.
  - destruct (encode_utf8 b); reflexivity.
  - rewrite IH.
    destruct (utf8_of_codepoint c), (encode_utf8 a), (encode_utf8 b);
      try reflexivity.
    rewrite app_assoc. reflexivity.
Qed.

(** X1. [generate_dingtalk_sign] on a [str] secret succeeds exactly when
    neither the timestamp nor the secret holds a surrogate; otherwise the
    strict UTF-8 codec makes it raise [UnicodeEncodeError], and nothing
    else. *)
Theorem generate_dingtalk_sign_raises_on_surrogates
        (timestamp secret : pystr) :
  match generate_dingtalk_sign timestamp (Some secret) with
  | Ok _ => forallb is_scalar (timestamp ++ secret) = true
  | Raise e =>
      e = UnicodeEncodeError
      /\ forallb is_scalar (timestamp ++ secret) = false
  end.
Proof.
  unfold generate_dingtalk_sign. simpl py_format.
  rewrite forallb_app.
  change (timestamp ++ [10%N] ++ secret)
    with (timestamp ++ ([10%N] ++ secret)).
  rewrite !encode_utf8_app.
  change (encode_utf8 [10%N]) with (Some [10%Z]).
  destruct (encode_utf8 secret) as [key |] eqn:Hs.
  - assert (Hsec : forallb is_scalar secret = true)
      by (apply encode_utf8_scalar; congruence).
    rewrite Hsec, andb_true_r.
    destruct (encode_utf8 timestamp) as [tb |] eqn:Ht.
    + apply encode_utf8_scalar. congruence.
    + split; [reflexivity |].
      destruct (forallb is_scalar timestamp) eqn:Hf; [| reflexivity].
      apply encode_utf8_scalar in Hf. contradiction.
  - split; [reflexivity |].
    destruct (forallb is_scalar secret) eqn:Hf.
    + apply encode_utf8_scalar in Hf. contradiction.
    + apply andb_false_r.
Qed.

Lemma last_map_default (A B : Type) (f : A -> B) (l : list A) (d : A) :
  last (map f l) (f d) = f (last l d).
Proof.
  induction l as [| x l IH]; [reflexivity |].
  simpl. destruct l; [reflexivity | exact IH].
Qed.

(** X2. Whatever the timestamp and the secret, a signature that is returned
    is 44 characters of the base64 alphabet and ends with the padding
    character: the digest has 32 bytes, and 32 is not a multiple of 3. *)
Theorem generate_dingtalk_sign_shape
        (timestamp : pystr) (secret : option pystr) (sign : pystr)
        (Hsign : generate_dingtalk_sign timestamp secret = Ok sign) :
  length sign = 44%nat
  /\ Forall (fun c => is_b64_char c = true) sign
  /\ last sign 0%N = 61%N.
Proof.
  unfold generate_dingtalk_sign in Hsign.
  destruct secret as [s |]; [| discriminate].
  destruct (encode_utf8 s) as [key |]; [| discriminate].
  destruct (encode_utf8 _) as [msg |]; [| discriminate].
  injection Hsign as <-.
  unfold Hmac.hmac_sha256, decode_ascii.
  set (digest := Sha256.sha256 _).
  assert (Hlen : length digest = 32%nat) by apply sha256_length.
  assert (Hbytes : Forall is_byte digest) by apply sha256_bytes.
  split; [| split].
  - rewrite length_map. apply Nat2Z.inj.
    rewrite b64encode_length, Hlen. reflexivity.
  - apply Forall_map.
    eapply Forall_impl; [| apply b64encode_alphabet, Hbytes].
    intros c Hc. unfold is_b64_char.
    assert (0 <= c)%Z.
    { unfold b64_alphabet in Hc.
      destruct (Z.leb_spec 65 c), (Z.leb_spec 97 c), (Z.leb_spec 48 c),
        (Z.eqb_spec c 43), (Z.eqb_spec c 47), (Z.eqb_spec c 61);
        simpl in Hc; try lia; rewrite ?andb_false_r in Hc; discriminate. }
    rewrite Z2N.id by assumption. exact Hc.
  - change 0%N with (Z.to_N 0). rewrite last_map_default.
    rewrite b64encode_padded; [reflexivity |].
    rewrite Hlen. discriminate.
Qed.

End SignatureErrors.

Lemma generate_dingtalk_sign_shape_witness :
  length (lit "d043yCasNZ+KC1N0lrVg+Aan0gEIKPvRfzRqMlUUwzk=") = 44%nat
  /\ Forall (fun c => is_b64_char c = true)
            (lit "d043yCasNZ+KC1N0lrVg+Aan0gEIKPvRfzRqMlUUwzk=")
  /\ last (lit "d043yCasNZ+KC1N0lrVg+Aan0gEIKPvRfzRqMlUUwzk=") 0%N = 61%N.
Proof.
  apply (generate_dingtalk_sign_shape
           (lit "1700000000000") (Some (lit "testsecret"))).
  vm_compute. reflexivity.
Defined.

(* ================================================================== *)
(** ** Further properties: the retry loop under any transport *)

(** A log line that reports the response of a delivered message. *)
Definition is_response_line (e : event) : bool :=
  match e with
  | EvLog INFO (PushPlusResponse _) => true
  | EvLog INFO (WxPusherResponse _) => true
  | _ => false
  end.

(** The seconds slept in a trace, added up. *)
Definition total_sleep (t : list event) : Z :=
  fold_right Z.add 0%Z (sleeps t).

Lemma alternate_io (x : io) (l : list Z) :
  flat_map (fun s => [x; IoSleep s]) l ++ [x] =
  x :: flat_map (fun s => [IoSleep s; x]) l.
Proof.
  induction l as [| s l IH]; simpl; [reflexivity |].
  rewrite IH. reflexivity.
Qed.

Lemma sum_bounds (lo hi : Z) (l : list Z) :
  Forall (fun s => (lo <= s <= hi)%Z) l ->
  (Z.of_nat (length l) * lo <= fold_right Z.add 0 l
   <= Z.of_nat (length l) * hi)%Z.
Proof.
  induction 1 as [| s l Hs Hl IH]; simpl fold_right.
  - simpl. lia.
  - cbn [length]. rewrite Nat2Z.inj_succ. lia.
Qed.

Section RetryShape.
Variable E : env.
Variable req : request.
Variable response_msg : pystr -> log_msg.
Variable failed_msg : exn -> log_msg.

(** Either every one of [n] consecutive attempts fails, or there is a
    first one that does not. *)
Lemma first_stop (n base : nat) :
  (forall j, (j < n)%nat -> attempt_fails (http E (base + j) req) = true)
  \/ (exists j, (j < n)%nat
        /\ (forall i, (i < j)%nat ->
              attempt_fails (http E (base + i) req) = true)
        /\ attempt_fails (http E (base + j) req) = false).
Proof.
  induction n as [| n IH].
  - left. intros j Hj. lia.
  - destruct IH as [Hall | (j & Hj & Hbefore & Hstop)].
    + destruct (attempt_fails (http E (base + n) req)) eqn:Hn.
      * left. intros j Hj.
        destruct (Nat.eq_dec j n) as [-> | Hne]; [exact Hn |].
        apply Hall. lia.
      * right. exists n. repeat split; [lia | exact Hall | exact Hn].
    + right. exists j. repeat split; [lia | exact Hbefore | exact Hstop].
Qed.

Lemma failures_events_app (l1 l2 : list nat) (w : world) :
  failures_events E req failed_msg (l1 ++ l2) w =
  failures_events E req failed_msg l1 w
  ++ failures_events E req failed_msg l2
       (after_failures E req failed_msg l1 w).
Proof.
  revert w. induction l1 as [| a l1 IH]; intros w; simpl.
  - reflexivity.
  - rewrite IH, <- !app_assoc. reflexivity.
Qed.

Lemma http_requests_of_failures (l : list nat) (w : world) :
  http_requests (failures_events E req failed_msg l w)
  = repeat req (length l).
Proof.
  revert w. induction l as [| a l IH]; intros w; simpl; [reflexivity |].
  rewrite http_requests_app. simpl. rewrite IH.
  destruct (a <? 4)%nat; reflexivity.
Qed.

Lemma no_response_line_in_failures (l : list nat) (w : world) :
  existsb is_response_line (failures_events E req failed_msg l w) = false.
Proof.
  revert w. induction l as [| a l IH]; intros w; simpl; [reflexivity |].
  rewrite existsb_app, IH.
  destruct (a <? 4)%nat; reflexivity.
Qed.

(** While attempts remain, every failure is followed by one pause. *)
Lemma pauses_of_failures (l : list nat) (w : world) :
  Forall (fun a => (a < 4)%nat) l ->
  length (sleeps (failures_events E req failed_msg l w)) = length l
  /\ Forall (fun s => (180 <= s <= 360)%Z)
            (sleeps (failures_events E req failed_msg l w))
  /\ io_of (failures_events E req failed_msg l w)
     = flat_map (fun s => [IoHttp; IoSleep s])
                (sleeps (failures_events E req failed_msg l w)).
Proof.
  intros Hl. revert w.
  induction Hl as [| a l Ha Hl IH]; intros w; simpl.
  - repeat split. constructor.
  - apply Nat.ltb_lt in Ha. rewrite Ha. simpl.
    destruct (IH (after_failure E req failed_msg a w)) as (IH1 & IH2 & IH3).
    rewrite IH1, IH3. repeat split.
    constructor; [| exact IH2].
    unfold backoff. apply (randint_bounds 180 360). lia.
Qed.

Lemma seq_below (a n : nat) : Forall (fun x => (x < a + n)%nat) (seq a n).
Proof.
  apply Forall_forall. intros x Hx. apply in_seq in Hx. lia.
Qed.

(** How a run of the loop ends: at the first attempt that does not fail,
    by delivery or by an exception that is not caught, or after the
    fifth failure. *)
Lemma retry_run_cases (w : world) :
  (exists (j : nat) (resp : response),
      (j < 5)%nat
      /\ http E (n_http w + j) req = Resp resp
      /\ is_error_status (status_code resp) = false
      /\ for_in (range 5) (retry_attempt E req response_msg failed_msg) w =
           (Ok None,
            after_success req response_msg resp
              (after_failures E req failed_msg (seq 0 j) w)))
  \/ (exists (j : nat) (e : exn),
        (j < 5)%nat
        /\ http E (n_http w + j) req = Throw e
        /\ is_RequestException e = false
        /\ for_in (range 5) (retry_attempt E req response_msg failed_msg) w =
             (Raise e,
              mkWorld
                (S (n_http (after_failures E req failed_msg (seq 0 j) w)))
                (n_rand (after_failures E req failed_msg (seq 0 j) w))
                (n_clock (after_failures E req failed_msg (seq 0 j) w))
                (trace (after_failures E req failed_msg (seq 0 j) w)
                 ++ [EvHttp req])))
  \/ ((forall j, (j < 5)%nat ->
         attempt_fails (http E (n_http w + j) req) = true)
      /\ for_in (range 5) (retry_attempt E req response_msg failed_msg) w =
           (Ok None, after_failures E req failed_msg (seq 0 5) w)).
Proof.
  destruct (first_stop 5 (n_http w)) as [Hall | (j & Hj & Hbefore & Hstop)].
  - right. right. split; [exact Hall |].
    change (range 5) with (seq 0 5 ++ []).
    rewrite for_in_failures by exact Hall. reflexivity.
  - assert (Hrun :
      for_in (range 5) (retry_attempt E req response_msg failed_msg) w =
      bind (retry_attempt E req response_msg failed_msg j)
           (fun c =>
              match c with
              | Next =>
                  for_in (seq (S j) (4 - j))
                         (retry_attempt E req response_msg failed_msg)
              | Break => ret None
              | Return v => ret (Some v)
              end)
           (after_failures E req failed_msg (seq 0 j) w)).
    { rewrite (range_split j) by lia.
      rewrite for_in_failures by (rewrite length_seq; exact Hbefore).
      replace (5 - j)%nat with (S (4 - j)) by lia. reflexivity. }
    set (w1 := after_failures E req failed_msg (seq 0 j) w) in *.
    assert (Hn1 : n_http w1 = (n_http w + j)%nat)
      by (unfold w1; rewrite n_http_after_failures, length_seq; reflexivity).
    destruct (http E (n_http w + j) req) as [resp | e] eqn:Hh;
      simpl in Hstop.
    + left. exists j, resp.
      split; [exact Hj |]. split; [exact Hh |]. split; [exact Hstop |].
      rewrite Hrun. unfold bind.
      rewrite (retry_attempt_succeeds E req response_msg failed_msg
                 j w1 resp) by (rewrite ?Hn1; assumption).
      reflexivity.
    + right. left. exists j, e.
      split; [exact Hj |]. split; [exact Hh |]. split; [exact Hstop |].
      rewrite Hrun. unfold bind.
      rewrite (retry_attempt_escapes E req response_msg failed_msg
                 j w1 e) by (rewrite ?Hn1; assumption).
      reflexivity.
Qed.

(** The trace of [j <= 4] failures followed by one more call that adds
    [tail], where [tail] holds log lines only. *)
Lemma shape_after_failures (j : nat) (w : world) (tail : list event) :
  (j <= 4)%nat ->
  http_requests tail = [] -> sleeps tail = [] -> io_of tail = [] ->
  let t := failures_events E req failed_msg (seq 0 j) w
           ++ EvHttp req :: tail in
  http_requests t = repeat req (S j)
  /\ io_of t = IoHttp :: flat_map (fun s => [IoSleep s; IoHttp]) (sleeps t)
  /\ length (sleeps t) = j
  /\ Forall (fun s => (180 <= s <= 360)%Z) (sleeps t)
  /\ exists rest, t = EvHttp req :: rest.
Proof.
  intros Hj Hh Hs Hio t. subst t.
  assert (Hlt : Forall (fun a => (a < 4)%nat) (seq 0 j)).
  { eapply Forall_impl; [| apply seq_below].
    intros a Ha. simpl in Ha. lia. }
  destruct (pauses_of_failures (seq 0 j) w Hlt) as (P1 & P2 & P3).
  rewrite length_seq in P1.
  rewrite http_requests_app, sleeps_app, io_of_app. simpl.
  rewrite Hh, Hs, Hio, app_nil_r, P3, http_requests_of_failures, length_seq.
  split; [| split; [| split; [| split]]].
  - symmetry. apply repeat_cons.
  - apply alternate_io.
  - exact P1.
  - exact P2.
  - destruct j as [| j]; simpl; eexists; reflexivity.
Qed.

(** The five failures of an exhausted run: four with a pause, and the
    last one. *)
Lemma exhausted_events (w : world) :
  failures_events E req failed_msg (seq 0 5) w =
  failures_events E req failed_msg (seq 0 4) w
  ++ EvHttp req
     :: [EvLog ERROR
           (failed_msg
              (failure_of
                 (http E
                    (n_http (after_failures E req failed_msg (seq 0 4) w))
                    req)))].
Proof.
  change (seq 0 5) with (seq 0 4 ++ [4%nat]).
  rewrite failures_events_app. reflexivity.
Qed.

End RetryShape.

Section RetryRuns.
Variable E : env.

(** Every run of PushPlus or WxPusher: [j <= 4] failed attempts, each
    followed by a pause, then one more call, which delivers, throws an
    exception that is not caught, or is the fifth failure. *)
Lemma retry_run_trace (s : retry_sender) (content : pystr)
      (credential : option pystr) (w : world) :
  let req := sender_request s content credential in
  exists (r : outcome pyval) (w' : world) (j : nat) (tail : list event),
    sender_run E s content credential w = (r, w')
    /\ (j <= 4)%nat
    /\ trace w' =
         trace w ++
         (failures_events E req (sender_failed_msg s) (seq 0 j) w
          ++ EvHttp req :: tail)
    /\ n_http w' = (n_http w + S j)%nat
    /\ http_requests tail = [] /\ sleeps tail = [] /\ io_of tail = []
    /\ ((r = Ok PyNone
         /\ exists resp,
              tail = [EvLog INFO (sender_response_msg s (text resp))]
              /\ http E (n_http w + j) req = Resp resp
              /\ is_error_status (status_code resp) = false)
        \/ (exists e,
              r = Raise e /\ tail = []
              /\ http E (n_http w + j) req = Throw e
              /\ is_RequestException e = false)
        \/ (r = Ok PyNone /\ j = 4%nat
            /\ (exists e, tail = [EvLog ERROR (sender_failed_msg s e)])
            /\ forall i, (i < 5)%nat ->
                 attempt_fails (http E (n_http w + i) req) = true)).
Proof.
  intros req. rewrite sender_run_unfold. fold req. unfold bind at 1.
  destruct (retry_run_cases E req (sender_response_msg s)
              (sender_failed_msg s) w)
    as [(j & resp & Hj & Hh & Hs & Hrun)
       | [(j & e & Hj & Hh & He & Hrun) | (Hall & Hrun)]];
    rewrite Hrun.
  - exists (Ok PyNone), (after_success req (sender_response_msg s) resp
                           (after_failures E req (sender_failed_msg s)
                              (seq 0 j) w)),
           j, [EvLog INFO (sender_response_msg s (text resp))].
    split; [reflexivity |]. split; [lia |].
    split; [simpl; rewrite trace_after_failures, <- app_assoc; reflexivity |].
    split; [simpl; rewrite n_http_after_failures, length_seq; lia |].
    split; [reflexivity |]. split; [reflexivity |]. split; [reflexivity |].
    left. split; [reflexivity |]. exists resp. repeat split; assumption.
  - eexists (Raise e), _, j, [].
    split; [reflexivity |]. split; [lia |].
    split; [simpl; rewrite trace_after_failures, <- app_assoc; reflexivity |].
    split; [simpl; rewrite n_http_after_failures, length_seq; lia |].
    split; [reflexivity |]. split; [reflexivity |]. split; [reflexivity |].
    right. left. exists e. repeat split; assumption.
  - eexists (Ok PyNone), _, 4%nat, _.
    split; [reflexivity |]. split; [lia |].
    split; [rewrite trace_after_failures, exhausted_events; reflexivity |].
    split; [rewrite n_http_after_failures; reflexivity |].
    split; [reflexivity |]. split; [reflexivity |]. split; [reflexivity |].
    right. right. split; [reflexivity |]. split; [reflexivity |].
    split; [eexists; reflexivity | exact Hall].
Qed.

(** X3. Whatever the transport does, PushPlus and WxPusher make between 1
    and 5 HTTP calls, all with the same request; calls and pauses
    alternate, beginning and ending with a call, and every pause lasts
    180 to 360 seconds, so that at most 1440 seconds are slept. *)
Theorem retry_run_shape (s : retry_sender) (content : pystr)
        (credential : option pystr) (w : world) :
  let req := sender_request s content credential in
  exists (r : outcome pyval) (w' : world) (t : list event) (k : nat),
    sender_run E s content credential w = (r, w')
    /\ trace w' = trace w ++ t
    /\ (1 <= k <= 5)%nat
    /\ http_requests t = repeat req k
    /\ n_http w' = (n_http w + k)%nat
    /\ io_of t = IoHttp :: flat_map (fun p => [IoSleep p; IoHttp]) (sleeps t)
    /\ length (sleeps t) = (k - 1)%nat
    /\ Forall (fun p => (180 <= p <= 360)%Z) (sleeps t)
    /\ (0 <= total_sleep t <= 1440)%Z.
Proof.
  intros req.
  destruct (retry_run_trace s content credential w)
    as (r & w' & j & tail & Hrun & Hj & Htrace & Hn & Hh & Hs & Hio & _).
  fold req in Htrace.
  destruct (shape_after_failures E req (sender_failed_msg s) j w tail
              Hj Hh Hs Hio) as (A & B & C & D & _).
  exists r, w', (failures_events E req (sender_failed_msg s) (seq 0 j) w
                 ++ EvHttp req :: tail), (S j).
  split; [exact Hrun |]. split; [exact Htrace |]. split; [lia |].
  split; [exact A |]. split; [exact Hn |]. split; [exact B |].
  split; [rewrite C; lia |]. split; [exact D |].
  pose proof (sum_bounds 180 360 _ D) as Hsum. rewrite C in Hsum.
  unfold total_sleep. lia.
Qed.

(** X4. The result of PushPlus and WxPusher is [None] both when the message
    was delivered and when all five attempts failed; the two cases differ
    by the log alone: the response line is logged, as the last event,
    exactly when the last call succeeded.  An exception that leaves the
    sender is one the last call threw from outside the requests
    hierarchy, and then nothing is logged for that call. *)
Theorem retry_result_and_log (s : retry_sender) (content : pystr)
        (credential : option pystr) (w : world) :
  let req := sender_request s content credential in
  exists (r : outcome pyval) (w' : world) (t : list event),
    sender_run E s content credential w = (r, w')
    /\ trace w' = trace w ++ t
    /\ ((r = Ok PyNone
         /\ existsb is_response_line t = true
         /\ attempt_succeeds (http E (Nat.pred (n_http w')) req) = true
         /\ exists pre resp,
              t = pre ++ [EvHttp req;
                          EvLog INFO (sender_response_msg s (text resp))])
        \/ (r = Ok PyNone
            /\ existsb is_response_line t = false
            /\ length (http_requests t) = 5%nat
            /\ forall i, (i < 5)%nat ->
                 attempt_fails (http E (n_http w + i) req) = true)
        \/ (exists e,
              r = Raise e
              /\ is_RequestException e = false
              /\ existsb is_response_line t = false
              /\ http E (Nat.pred (n_http w')) req = Throw e
              /\ exists pre, t = pre ++ [EvHttp req])).
Proof.
  intros req.
  destruct (retry_run_trace s content credential w)
    as (r & w' & j & tail & Hrun & Hj & Htrace & Hn & Hh & Hs & Hio
        & Hcases).
  fold req in Htrace, Hcases.
  exists r, w', (failures_events E req (sender_failed_msg s) (seq 0 j) w
                 ++ EvHttp req :: tail).
  split; [exact Hrun |]. split; [exact Htrace |].
  assert (Hpred : Nat.pred (n_http w') = (n_http w + j)%nat)
    by (rewrite Hn; lia).
  rewrite Hpred.
  destruct Hcases as [(Hr & resp & Ht & Hresp & Hstatus)
                     | [(e & Hr & Ht & Hthrow & He)
                       | (Hr & Hj4 & (e & Ht) & Hall)]]; subst tail.
  - left. split; [exact Hr |].
    split.
    { rewrite existsb_app, no_response_line_in_failures. simpl.
      destruct s; reflexivity. }
    split; [rewrite Hresp; simpl; rewrite Hstatus; reflexivity |].
    exists (failures_events E req (sender_failed_msg s) (seq 0 j) w), resp.
    reflexivity.
  - right. right. exists e. split; [exact Hr |]. split; [exact He |].
    split; [rewrite existsb_app, no_response_line_in_failures; reflexivity |].
    split; [exact Hthrow |].
    exists (failures_events E req (sender_failed_msg s) (seq 0 j) w).
    reflexivity.
  - right. left. split; [exact Hr |].
    split; [rewrite existsb_app, no_response_line_in_failures; reflexivity |].
    split; [| exact Hall].
    rewrite http_requests_app, http_requests_of_failures, length_app,
      repeat_length, length_seq. subst j. reflexivity.
Qed.

End RetryRuns.

(* ================================================================== *)
(** ** Further properties: Telegram *)

Section TelegramRuns.
Variable E : env.
Variable cfg : config.

(** Runs [push_telegram] on each possible pair of answers. *)
Ltac telegram_cases proxied direct w :=
  unfold push_telegram; fold proxied; fold direct; run_py;
  destruct (http E (n_http w) proxied) as [r1 | e1]; simpl;
  [destruct (is_error_status (status_code r1)) eqn:S1; simpl |];
  try (destruct (http E (S (n_http w)) direct) as [r2 | e2]; simpl;
       [destruct (is_error_status (status_code r2)) eqn:S2; simpl |]).

(** Every run of [push_telegram] starts with the proxied call, makes at
    most two calls, each with a timeout of 30 seconds, and never sleeps
    nor raises. *)
Lemma push_telegram_run
      (content : pystr) (bot_token chat_id : option pystr) (w : world) :
  exists (b : bool) (w' : world) (rest : list event),
    push_telegram E cfg content bot_token chat_id w = (Ok (PyBool b), w')
    /\ trace w' =
         trace w
         ++ EvHttp (telegram_proxied cfg content bot_token chat_id) :: rest
    /\ (length (http_requests rest) <= 1)%nat
    /\ sleeps rest = []
    /\ (forall req, In req (http_requests rest) -> timeout req = 30%Z).
Proof.
  set (proxied := telegram_proxied cfg content bot_token chat_id).
  set (direct := telegram_direct content bot_token chat_id).
  telegram_cases proxied direct w;
    eexists; eexists; eexists;
    (split; [reflexivity |]);
    (split; [simpl; rewrite <- ?app_assoc; simpl; reflexivity |]);
    simpl; repeat split; try lia;
    intros req Hreq; simpl in Hreq;
    repeat (destruct Hreq as [<- | Hreq]; [reflexivity |]);
    destruct Hreq.
Qed.

(** X5. What [push_telegram] logs.  The response of the proxied call is
    logged before its status is checked, so also when the status is an
    error; the response of the direct call is never logged.  A [False]
    result comes with both error lines, a [True] result never with the
    error line of the direct attempt. *)
Theorem push_telegram_logging
        (content : pystr) (bot_token chat_id : option pystr) (w : world) :
  let first := http E (n_http w)
                    (telegram_proxied cfg content bot_token chat_id) in
  exists (b : bool) (w' : world) (t : list event),
    push_telegram E cfg content bot_token chat_id w = (Ok (PyBool b), w')
    /\ trace w' = trace w ++ t
    /\ (forall x, In (EvLog INFO (TelegramResponse x)) t
                  <-> exists r1, first = Resp r1 /\ x = text r1)
    /\ (b = false ->
        exists e1 e2,
          In (EvLog ERROR (TelegramProxyFailed e1)) t
          /\ In (EvLog ERROR (TelegramFailed e2)) t)
    /\ (b = true -> forall e2, ~ In (EvLog ERROR (TelegramFailed e2)) t).
Proof.
  set (proxied := telegram_proxied cfg content bot_token chat_id).
  set (direct := telegram_direct content bot_token chat_id).
  intros first. subst first.
  telegram_cases proxied direct w;
    eexists; eexists; eexists;
    (split; [reflexivity |]);
    (split; [simpl; rewrite <- ?app_assoc; simpl; reflexivity |]).
  all: split; [| split].
  all: try (intros Hb; discriminate Hb).
  all: try (intros x; split;
            [ intros H; simpl in H;
              repeat (destruct H as [H | H];
                      [ first [ discriminate H
                              | injection H as <-; eexists; split;
                                reflexivity ] |]);
              destruct H
            | intros (r0 & Hr & ->);
              first [ discriminate Hr
                    | injection Hr as <-; simpl; tauto ] ]).
  all: try (intros _; eexists; eexists; split; simpl;
            repeat first [left; reflexivity | right]).
  all: intros _ ex H; simpl in H;
    repeat (destruct H as [H | H]; [discriminate H |]); destruct H.
Qed.

End TelegramRuns.

(* ================================================================== *)
(** ** Further properties: DingTalk *)

Section DingTalkRuns.
Variable E : env.
Variable cfg : config.
Variable content : pystr.

(** Every run with a webhook, summarised. *)
Lemma push_dingtalk_run (w : world) :
  truthy (DINGTALK_WEBHOOK cfg) = true ->
  exists (b : bool) (w' : world) (t : list event) (k : nat),
    push_dingtalk E cfg content w = (Ok (PyBool b), w')
    /\ run_summary E cfg content w b w' t k.
Proof.
  intros Hhook.
  rewrite (push_dingtalk_unroll E cfg content w Hhook). cbv zeta.
  pose proof (progress_start E cfg content w) as P0.
  destruct (attempt_qualifies E cfg content w) eqn:Q0.
  { eexists; eexists; eexists; exists 1%nat.
    split; [reflexivity |].
    exact (progress_success E cfg content w w 0 [] P0 ltac:(lia) Q0). }
  pose proof (progress_failure E cfg content w w 0 [] P0 ltac:(lia) Q0)
    as P1.
  destruct (attempt_qualifies E cfg content
              (dingtalk_after_failure E cfg content 0 w)) eqn:Q1.
  { eexists; eexists; eexists; exists 2%nat.
    split; [reflexivity |].
    exact (progress_success E cfg content _ _ 1 _ P1 ltac:(lia) Q1). }
  pose proof (progress_failure E cfg content _ _ 1 _ P1 ltac:(lia) Q1)
    as P2.
  destruct (attempt_qualifies E cfg content
              (dingtalk_after_failure E cfg content 1 _)) eqn:Q2.
  { eexists; eexists; eexists; exists 3%nat.
    split; [reflexivity |].
    exact (progress_success E cfg content _ _ 2 _ P2 ltac:(lia) Q2). }
  pose proof (progress_failure E cfg content _ _ 2 _ P2 ltac:(lia) Q2)
    as P3.
  eexists; eexists; eexists; exists 3%nat.
  split; [reflexivity |].
  exact (progress_exhausted E cfg content _ _ _ P3).
Qed.

Lemma trace_after_failure (a : nat) (x : world) :
  trace (dingtalk_after_failure E cfg content a x)
  = trace x ++ dingtalk_failure_events E cfg content a x.
Proof. reflexivity. Qed.

Lemma trace_after_success (x : world) :
  trace (dingtalk_after_success E cfg content x)
  = trace x ++ dingtalk_success_events E cfg content x.
Proof. reflexivity. Qed.

(** The trace of a world reached after some attempts, as one list. *)
Ltac dk_trace :=
  repeat first
    [ rewrite trace_after_success
    | rewrite trace_after_failure
    | match goal with
      | x := dingtalk_after_failure _ _ _ _ _ |- _ => progress unfold x
      end ];
  rewrite <- ?app_assoc; reflexivity.

(** *** The timestamp is always signable *)

Lemma uint_digits_ascii (u : Decimal.uint) :
  Forall (fun c => (c < 128)%N) (uint_digits u).
Proof.
  induction u; simpl; constructor; try assumption; reflexivity.
Qed.

Lemma str_of_int_ascii (z : Z) : Forall (fun c => (c < 128)%N) (str_of_int z).
Proof.
  destruct z; simpl.
  - repeat constructor.
  - apply uint_digits_ascii.
  - constructor; [reflexivity | apply uint_digits_ascii].
Qed.

Lemma encode_utf8_ascii (s : pystr) :
  Forall (fun c => (c < 128)%N) s -> encode_utf8 s = Some (map Z.of_N s).
Proof.
  induction 1 as [| c s Hc Hs IH]; simpl; [reflexivity |].
  rewrite IH. unfold utf8_of_codepoint.
  replace (Z.of_N c <? 128)%Z with true
    by (symmetry; apply Z.ltb_lt; lia).
  reflexivity.
Qed.

(** With a secret that has UTF-8 bytes, the signature of any clock
    reading can be computed. *)
Lemma timestamp_signable (z : Z) (s : pystr) (key : pybytes) :
  encode_utf8 s = Some key ->
  exists sign, generate_dingtalk_sign (str_of_int z) (Some s) = Ok sign.
Proof.
  intros Hkey. unfold generate_dingtalk_sign. simpl py_format.
  rewrite Hkey.
  change (str_of_int z ++ [10%N] ++ s)
    with (str_of_int z ++ ([10%N] ++ s)).
  rewrite !encode_utf8_app, Hkey.
  rewrite (encode_utf8_ascii (str_of_int z)) by apply str_of_int_ascii.
  change (encode_utf8 [10%N]) with (Some [10%Z]).
  eexists. reflexivity.
Qed.

Section Signable.
Variable s : pystr.
Variable key : pybytes.
Hypothesis Hsecret : DINGTALK_SECRET cfg = Some s.
Hypothesis Hkey : encode_utf8 s = Some key.

Lemma attempt_calls_signable (w : world) :
  exists req, attempt_calls E cfg content w = [EvHttp req].
Proof.
  unfold attempt_calls, attempt_request, attempt_sign, attempt_timestamp.
  rewrite Hsecret.
  destruct (timestamp_signable (clock_ms E (n_clock w)) s key Hkey)
    as (sign & ->).
  eexists. reflexivity.
Qed.

Lemma io_failure_signable (a : nat) (w : world) :
  io_of (dingtalk_failure_events E cfg content a w) =
  IoClock :: IoHttp
  :: (if (a <? 2)%nat then [IoSleep (dingtalk_backoff E (n_rand w))]
      else []).
Proof.
  unfold dingtalk_failure_events, dingtalk_backoff_events.
  destruct (attempt_calls_signable w) as (req & ->).
  destruct (a <? 2)%nat; reflexivity.
Qed.

Lemma io_success_signable (w : world) :
  io_of (dingtalk_success_events E cfg content w) = [IoClock; IoHttp].
Proof.
  unfold dingtalk_success_events.
  destruct (attempt_calls_signable w) as (req & ->). reflexivity.
Qed.

Lemma one_call_signable (w : world) :
  length (http_requests (attempt_calls E cfg content w)) = 1%nat.
Proof.
  destruct (attempt_calls_signable w) as (req & ->). reflexivity.
Qed.

End Signable.

(** X6. With a webhook and a secret that has UTF-8 bytes, every attempt of
    [push_dingtalk] reads the clock and then makes one HTTP call: the
    run is clock, call, and then pause, clock, call for each further
    attempt. *)
Theorem push_dingtalk_one_call_per_attempt
        (w : world) (s : pystr) (key : pybytes)
        (Hhook : truthy (DINGTALK_WEBHOOK cfg) = true)
        (Hsecret : DINGTALK_SECRET cfg = Some s)
        (Hkey : encode_utf8 s = Some key) :
  exists (b : bool) (w' : world) (t : list event),
    push_dingtalk E cfg content w = (Ok (PyBool b), w')
    /\ trace w' = trace w ++ t
    /\ io_of t =
         IoClock :: IoHttp
         :: flat_map (fun p => [IoSleep p; IoClock; IoHttp]) (sleeps t)
    /\ length (http_requests t) = S (length (sleeps t)).
Proof.
  rewrite (push_dingtalk_unroll E cfg content w Hhook). cbv zeta.
  set (w1 := dingtalk_after_failure E cfg content 0 w).
  set (w2 := dingtalk_after_failure E cfg content 1 w1).
  destruct (observe_success_events E cfg content w) as (Oh0 & Os0 & _).
  destruct (observe_success_events E cfg content w1) as (Oh1 & Os1 & _).
  destruct (observe_success_events E cfg content w2) as (Oh2 & Os2 & _).
  destruct (attempt_qualifies E cfg content w).
  { exists true, (dingtalk_after_success E cfg content w),
           (dingtalk_success_events E cfg content w).
    split; [reflexivity |]. split; [reflexivity |].
    rewrite Os0, Oh0, (io_success_signable s key Hsecret Hkey),
      (one_call_signable s key Hsecret Hkey).
    split; reflexivity. }
  destruct (attempt_qualifies E cfg content w1).
  { exists true, (dingtalk_after_success E cfg content w1),
           (dingtalk_failure_events E cfg content 0 w
            ++ dingtalk_success_events E cfg content w1).
    split; [reflexivity |].
    split; [dk_trace |].
    rewrite io_of_app, sleeps_app, http_requests_app, length_app,
      sleeps_failure_events, Os1, Oh1, http_requests_failure_events,
      (io_failure_signable s key Hsecret Hkey),
      (io_success_signable s key Hsecret Hkey),
      !(one_call_signable s key Hsecret Hkey).
    split; reflexivity. }
  destruct (attempt_qualifies E cfg content w2).
  { exists true, (dingtalk_after_success E cfg content w2),
           (dingtalk_failure_events E cfg content 0 w
            ++ dingtalk_failure_events E cfg content 1 w1
            ++ dingtalk_success_events E cfg content w2).
    split; [reflexivity |].
    split; [dk_trace |].
    rewrite !io_of_app, !sleeps_app, !http_requests_app, !length_app,
      !sleeps_failure_events, Os2, Oh2, !http_requests_failure_events,
      !(io_failure_signable s key Hsecret Hkey),
      (io_success_signable s key Hsecret Hkey),
      !(one_call_signable s key Hsecret Hkey).
    split; reflexivity. }
  exists false, (dingtalk_after_failure E cfg content 2 w2),
         (dingtalk_failure_events E cfg content 0 w
          ++ dingtalk_failure_events E cfg content 1 w1
          ++ dingtalk_failure_events E cfg content 2 w2).
  split; [reflexivity |].
  split; [dk_trace |].
  rewrite !io_of_app, !sleeps_app, !http_requests_app, !length_app,
    !sleeps_failure_events, !http_requests_failure_events,
    !(io_failure_signable s key Hsecret Hkey),
    !(one_call_signable s key Hsecret Hkey).
  split; reflexivity.
Qed.

(** X7. With a webhook and a secret that is a [str] without UTF-8 bytes (it
    holds a surrogate), no HTTP call is ever made: each of the 3 attempts
    fails in [generate_dingtalk_sign] with [UnicodeEncodeError], which
    the handler logs, and the sender returns [False]. *)
Theorem push_dingtalk_unencodable_secret
        (w : world) (s : pystr)
        (Hhook : truthy (DINGTALK_WEBHOOK cfg) = true)
        (Hsecret : DINGTALK_SECRET cfg = Some s)
        (Hbad : encode_utf8 s = None) :
  let s0 := dingtalk_backoff E (n_rand w) in
  let s1 := dingtalk_backoff E (S (n_rand w)) in
  push_dingtalk E cfg content w =
    (Ok (PyBool false),
     mkWorld (n_http w) (S (S (n_rand w))) (S (S (S (n_clock w))))
             (trace w ++
              [EvClock; EvLog ERROR (DingTalkException UnicodeEncodeError);
               EvLog INFO (DingTalkRetryIn s0); EvSleep s0;
               EvClock; EvLog ERROR (DingTalkException UnicodeEncodeError);
               EvLog INFO (DingTalkRetryIn s1); EvSleep s1;
               EvClock; EvLog ERROR (DingTalkException UnicodeEncodeError)])).
Proof.
  intros s0 s1.
  assert (Hsign : forall ts,
             generate_dingtalk_sign ts (DINGTALK_SECRET cfg)
             = Raise UnicodeEncodeError).
  { intros ts. unfold generate_dingtalk_sign.
    rewrite Hsecret, Hbad. reflexivity. }
  assert (Hq : forall x, attempt_qualifies E cfg content x = false).
  { intros x. unfold attempt_qualifies, attempt_request, attempt_sign.
    rewrite Hsign. reflexivity. }
  assert (Hc : forall x, attempt_calls E cfg content x = []).
  { intros x. unfold attempt_calls, attempt_request, attempt_sign.
    rewrite Hsign. reflexivity. }
  assert (Hm : forall x, attempt_failure_msg E cfg content x
                         = DingTalkException UnicodeEncodeError).
  { intros x. unfold attempt_failure_msg, attempt_sign.
    rewrite Hsign. reflexivity. }
  rewrite (push_dingtalk_unroll E cfg content w Hhook). cbv zeta.
  rewrite !Hq.
  unfold dingtalk_after_failure, dingtalk_failure_events,
    dingtalk_backoff_events.
  rewrite !Hc, !Hm. simpl.
  rewrite !Nat.add_0_r, <- !app_assoc. reflexivity.
Qed.

(** *** The result and the log *)

Lemma no_sent_in_failure (a : nat) (w : world) :
  ~ In (EvLog INFO DingTalkSent) (dingtalk_failure_events E cfg content a w).
Proof.
  unfold dingtalk_failure_events, dingtalk_backoff_events.
  destruct (attempt_cases E cfg content w) as [[C _] | (req & sg & C & _)];
    rewrite C; destruct (a <? 2)%nat; simpl; intros H;
    repeat (destruct H as [H | H]; [discriminate H |]); destruct H.
Qed.

Lemma error_in_failure (a : nat) (w : world) :
  In (EvLog ERROR (attempt_failure_msg E cfg content w))
     (dingtalk_failure_events E cfg content a w).
Proof.
  unfold dingtalk_failure_events. right.
  apply in_or_app. right. left. reflexivity.
Qed.

Lemma sent_in_success (w : world) :
  In (EvLog INFO DingTalkSent) (dingtalk_success_events E cfg content w).
Proof.
  unfold dingtalk_success_events. right.
  apply in_or_app. right. left. reflexivity.
Qed.

(** X8. For every configuration and transport, [push_dingtalk] returns a
    boolean that agrees with its log: [True] exactly when the success
    line was logged, and [False] never without an error line. *)
Theorem push_dingtalk_result_is_logged (w : world) :
  exists (b : bool) (w' : world) (t : list event),
    push_dingtalk E cfg content w = (Ok (PyBool b), w')
    /\ trace w' = trace w ++ t
    /\ (b = true <-> In (EvLog INFO DingTalkSent) t)
    /\ (b = false -> exists m, In (EvLog ERROR m) t).
Proof.
  destruct (truthy (DINGTALK_WEBHOOK cfg)) eqn:Hhook.
  - rewrite (push_dingtalk_unroll E cfg content w Hhook). cbv zeta.
    set (w1 := dingtalk_after_failure E cfg content 0 w).
    set (w2 := dingtalk_after_failure E cfg content 1 w1).
    pose proof (no_sent_in_failure 0 w) as N0.
    pose proof (no_sent_in_failure 1 w1) as N1.
    pose proof (no_sent_in_failure 2 w2) as N2.
    destruct (attempt_qualifies E cfg content w).
    { exists true, (dingtalk_after_success E cfg content w),
             (dingtalk_success_events E cfg content w).
      split; [reflexivity |]. split; [reflexivity |].
      split; [| discriminate].
      split; [intros _; apply sent_in_success | reflexivity]. }
    destruct (attempt_qualifies E cfg content w1).
    { exists true, (dingtalk_after_success E cfg content w1),
             (dingtalk_failure_events E cfg content 0 w
              ++ dingtalk_success_events E cfg content w1).
      split; [reflexivity |].
      split; [dk_trace |].
      split; [| discriminate].
      split; [intros _ | reflexivity].
      apply in_or_app. right. apply sent_in_success. }
    destruct (attempt_qualifies E cfg content w2).
    { exists true, (dingtalk_after_success E cfg content w2),
             (dingtalk_failure_events E cfg content 0 w
              ++ dingtalk_failure_events E cfg content 1 w1
              ++ dingtalk_success_events E cfg content w2).
      split; [reflexivity |].
      split; [dk_trace |].
      split; [| discriminate].
      split; [intros _ | reflexivity].
      apply in_or_app. right. apply in_or_app. right.
      apply sent_in_success. }
    exists false, (dingtalk_after_failure E cfg content 2 w2),
           (dingtalk_failure_events E cfg content 0 w
            ++ dingtalk_failure_events E cfg content 1 w1
            ++ dingtalk_failure_events E cfg content 2 w2).
    split; [reflexivity |].
    split; [dk_trace |].
    split.
    + split; [discriminate |].
      intros H. exfalso.
      apply in_app_or in H. destruct H as [H | H]; [exact (N0 H) |].
      apply in_app_or in H. destruct H as [H | H]; [exact (N1 H) |].
      exact (N2 H).
    + intros _. eexists. apply in_or_app. left. apply error_in_failure.
  - rewrite push_dingtalk_unfold, Hhook. simpl negb. cbv iota.
    exists false. eexists. exists [EvLog ERROR DingTalkNoWebhook].
    split; [reflexivity |]. split; [reflexivity |].
    split.
    + split; [discriminate |].
      intros [H | []]. discriminate H.
    + intros _. exists DingTalkNoWebhook. left. reflexivity.
Qed.

End DingTalkRuns.

(* ================================================================== *)
(** ** Further properties: the dispatcher over all channels *)

Section PushRuns.
Variable E : env.
Variable cfg : config.

Lemma pystr_eqb_eq (a b : pystr) : pystr_eqb a b = true -> a = b.
Proof.
  unfold pystr_eqb.
  destruct (list_eq_dec N.eq_dec a b); [trivial | discriminate].
Qed.

Lemma pystr_eqb_false (a b : pystr) : pystr_eqb a b = false -> a <> b.
Proof.
  unfold pystr_eqb.
  destruct (list_eq_dec N.eq_dec a b); [discriminate | trivial].
Qed.

(** The bounds every run of a sender keeps. *)
Definition bounded (t : list event) : Prop :=
  (length (http_requests t) <= 5)%nat
  /\ (forall req, In req (http_requests t) -> (10 <= timeout req <= 30)%Z)
  /\ (length (sleeps t) <= 4)%nat
  /\ (0 <= total_sleep t <= 1440)%Z.

Lemma retry_bounded (s : retry_sender) (content : pystr)
      (credential : option pystr) (w : world) :
  exists (r : outcome pyval) (w' : world) (t : list event),
    sender_run E s content credential w = (r, w')
    /\ trace w' = trace w ++ t
    /\ bounded t
    /\ (exists req rest, t = EvHttp req :: rest)
    /\ (r = Ok PyNone
        \/ exists e req,
             r = Raise e /\ is_RequestException e = false
             /\ http E (Nat.pred (n_http w')) req = Throw e).
Proof.
  destruct (retry_run_trace E s content credential w)
    as (r & w' & j & tail & Hrun & Hj & Htrace & Hn & Hh & Hs & Hio
        & Hcases).
  cbv zeta in Htrace, Hcases.
  set (req := sender_request s content credential) in *.
  destruct (shape_after_failures E req (sender_failed_msg s) j w tail
              Hj Hh Hs Hio) as (A & B & C & D & F).
  exists r, w', (failures_events E req (sender_failed_msg s) (seq 0 j) w
                 ++ EvHttp req :: tail).
  split; [exact Hrun |]. split; [exact Htrace |].
  split; [| split].
  - unfold bounded. rewrite A, C, repeat_length.
    split; [lia |]. split; [| split; [lia |]].
    + intros r0 Hr0. apply repeat_spec in Hr0. subst r0.
      unfold req. destruct s; simpl; lia.
    + pose proof (sum_bounds 180 360 _ D) as Hsum. rewrite C in Hsum.
      unfold total_sleep. lia.
  - destruct F as (rest & ->). exists req, rest. reflexivity.
  - destruct Hcases as [(Hr & _) | [(e & Hr & _ & Hthrow & He) | (Hr & _)]].
    + left. exact Hr.
    + right. exists e, req. split; [exact Hr |]. split; [exact He |].
      replace (Nat.pred (n_http w')) with (n_http w + j)%nat
        by (rewrite Hn; lia).
      exact Hthrow.
    + left. exact Hr.
Qed.

Lemma telegram_bounded (content : pystr) (bot_token chat_id : option pystr)
      (w : world) :
  exists (b : bool) (w' : world) (t : list event),
    push_telegram E cfg content bot_token chat_id w = (Ok (PyBool b), w')
    /\ trace w' = trace w ++ t
    /\ bounded t
    /\ (exists req rest, t = EvHttp req :: rest).
Proof.
  destruct (push_telegram_run E cfg content bot_token chat_id w)
    as (b & w' & rest & Hrun & Htrace & Hlen & Hs & Ht).
  exists b, w',
         (EvHttp (telegram_proxied cfg content bot_token chat_id) :: rest).
  split; [exact Hrun |]. split; [exact Htrace |].
  split; [| eexists; eexists; reflexivity].
  unfold bounded, total_sleep. simpl. rewrite Hs. simpl.
  split; [lia |]. split; [| split; lia].
  intros req [<- | Hreq]; [simpl; lia |].
  rewrite (Ht req Hreq). lia.
Qed.

Lemma dingtalk_bounded (content : pystr) (w : world) :
  exists (b : bool) (w' : world) (t : list event),
    push_dingtalk E cfg content w = (Ok (PyBool b), w')
    /\ trace w' = trace w ++ t
    /\ bounded t.
Proof.
  destruct (truthy (DINGTALK_WEBHOOK cfg)) eqn:Hhook.
  - destruct (push_dingtalk_run E cfg content w Hhook)
      as (b & w' & t & k & Hrun & Htrace & Hk & _ & _ & Hsl & Hb & Hreq
          & Hcalls & _).
    exists b, w', t.
    split; [exact Hrun |]. split; [exact Htrace |].
    unfold bounded.
    split; [lia |]. split; [| split; [lia |]].
    + intros req Hin.
      destruct (Hreq req Hin) as (i & sign & _ & _ & ->). simpl. lia.
    + pose proof (sum_bounds 2 5 _ Hb) as Hsum. rewrite Hsl in Hsum.
      unfold total_sleep. lia.
  - rewrite push_dingtalk_unfold, Hhook. simpl negb. cbv iota.
    exists false. eexists. exists [EvLog ERROR DingTalkNoWebhook].
    split; [reflexivity |]. split; [reflexivity |].
    unfold bounded, total_sleep. simpl.
    split; [lia |]. split; [| split; lia].
    intros req [].
Qed.

(** X9. Whatever the channel, the configuration and the transport, one call
    of [push] makes at most 5 HTTP calls, each with a timeout between 10
    and 30 seconds, and sleeps at most 4 times, 1440 seconds in all. *)
Theorem push_bounded (content method : pystr) (w : world) :
  exists (r : outcome pyval) (w' : world) (t : list event),
    push E cfg content method w = (r, w')
    /\ trace w' = trace w ++ t
    /\ (length (http_requests t) <= 5)%nat
    /\ (forall req, In req (http_requests t) -> (10 <= timeout req <= 30)%Z)
    /\ (length (sleeps t) <= 4)%nat
    /\ (0 <= total_sleep t <= 1440)%Z.
Proof.
  unfold push.
  destruct (pystr_eqb method (lit "pushplus")).
  { destruct (retry_bounded PushPlus content (PUSHPLUS_TOKEN cfg) w)
      as (r & w' & t & Hrun & Htrace & Hb & _).
    exists r, w', t. split; [exact Hrun |]. split; [exact Htrace | exact Hb]. }
  destruct (pystr_eqb method (lit "telegram")).
  { destruct (telegram_bounded content (TELEGRAM_BOT_TOKEN cfg)
                (TELEGRAM_CHAT_ID cfg) w)
      as (b & w' & t & Hrun & Htrace & Hb & _).
    exists (Ok (PyBool b)), w', t.
    split; [exact Hrun |]. split; [exact Htrace | exact Hb]. }
  destruct (pystr_eqb method (lit "wxpusher")).
  { destruct (retry_bounded WxPusher content (WXPUSHER_SPT cfg) w)
      as (r & w' & t & Hrun & Htrace & Hb & _).
    exists r, w', t. split; [exact Hrun |]. split; [exact Htrace | exact Hb]. }
  destruct (pystr_eqb method (lit "dingtalk")).
  { destruct (dingtalk_bounded content w)
      as (b & w' & t & Hrun & Htrace & Hb).
    exists (Ok (PyBool b)), w', t.
    split; [exact Hrun |]. split; [exact Htrace | exact Hb]. }
  exists (Raise (ValueError invalid_channel_msg)), w, [].
  split; [reflexivity |]. split; [symmetry; apply app_nil_r |].
  unfold total_sleep. simpl.
  split; [lia |]. split; [| split; lia].
  intros req [].
Qed.

(** X10. What [push] gives back depends on the channel: [None] for PushPlus
    and WxPusher, unless the transport threw an exception from outside
    the requests hierarchy, which then reaches the caller; a boolean for
    Telegram and DingTalk, which never raise; and [ValueError], with
    nothing done, for any other method. *)
Theorem push_outcome_by_channel (content method : pystr) (w : world) :
  exists (r : outcome pyval) (w' : world),
    push E cfg content method w = (r, w')
    /\ (((method = lit "pushplus" \/ method = lit "wxpusher")
         /\ (r = Ok PyNone
             \/ exists e req,
                  r = Raise e /\ is_RequestException e = false
                  /\ http E (Nat.pred (n_http w')) req = Throw e))
        \/ ((method = lit "telegram" \/ method = lit "dingtalk")
            /\ exists b, r = Ok (PyBool b))
        \/ (method <> lit "pushplus" /\ method <> lit "telegram"
            /\ method <> lit "wxpusher" /\ method <> lit "dingtalk"
            /\ r = Raise (ValueError invalid_channel_msg) /\ w' = w)).
Proof.
  unfold push.
  destruct (pystr_eqb method (lit "pushplus")) eqn:H1.
  { apply pystr_eqb_eq in H1.
    destruct (retry_bounded PushPlus content (PUSHPLUS_TOKEN cfg) w)
      as (r & w' & t & Hrun & _ & _ & _ & Hr).
    exists r, w'. split; [exact Hrun |]. left. split; [tauto | exact Hr]. }
  destruct (pystr_eqb method (lit "telegram")) eqn:H2.
  { apply pystr_eqb_eq in H2.
    destruct (telegram_bounded content (TELEGRAM_BOT_TOKEN cfg)
                (TELEGRAM_CHAT_ID cfg) w) as (b & w' & t & Hrun & _).
    exists (Ok (PyBool b)), w'. split; [exact Hrun |].
    right. left. split; [tauto | exists b; reflexivity]. }
  destruct (pystr_eqb method (lit "wxpusher")) eqn:H3.
  { apply pystr_eqb_eq in H3.
    destruct (retry_bounded WxPusher content (WXPUSHER_SPT cfg) w)
      as (r & w' & t & Hrun & _ & _ & _ & Hr).
    exists r, w'. split; [exact Hrun |]. left. split; [tauto | exact Hr]. }
  destruct (pystr_eqb method (lit "dingtalk")) eqn:H4.
  { apply pystr_eqb_eq in H4.
    destruct (dingtalk_bounded content w) as (b & w' & t & Hrun & _).
    exists (Ok (PyBool b)), w'. split; [exact Hrun |].
    right. left. split; [tauto | exists b; reflexivity]. }
  exists (Raise (ValueError invalid_channel_msg)), w.
  split; [reflexivity |]. right. right.
  repeat split; try reflexivity; apply pystr_eqb_false; assumption.
Qed.

(** X11. PushPlus, Telegram and WxPusher have no check before the first
    call: whatever the configuration holds, also [None] for every
    credential, the first thing [push] does on these channels is an HTTP
    call. *)
Theorem push_calls_without_preflight (content method : pystr) (w : world)
        (Hmethod : method = lit "pushplus" \/ method = lit "telegram"
                   \/ method = lit "wxpusher") :
  exists (r : outcome pyval) (w' : world) (req : request)
         (rest : list event),
    push E cfg content method w = (r, w')
    /\ trace w' = trace w ++ EvHttp req :: rest.
Proof.
  destruct Hmethod as [-> | [-> | ->]].
  - change (push E cfg content (lit "pushplus") w)
      with (sender_run E PushPlus content (PUSHPLUS_TOKEN cfg) w).
    destruct (retry_bounded PushPlus content (PUSHPLUS_TOKEN cfg) w)
      as (r & w' & t & Hrun & Htrace & _ & (req & rest & ->) & _).
    exists r, w', req, rest. split; assumption.
  - change (push E cfg content (lit "telegram") w)
      with (push_telegram E cfg content (TELEGRAM_BOT_TOKEN cfg)
                          (TELEGRAM_CHAT_ID cfg) w).
    destruct (telegram_bounded content (TELEGRAM_BOT_TOKEN cfg)
                (TELEGRAM_CHAT_ID cfg) w)
      as (b & w' & t & Hrun & Htrace & _ & (req & rest & ->)).
    exists (Ok (PyBool b)), w', req, rest. split; assumption.
  - change (push E cfg content (lit "wxpusher") w)
      with (sender_run E WxPusher content (WXPUSHER_SPT cfg) w).
    destruct (retry_bounded WxPusher content (WXPUSHER_SPT cfg) w)
      as (r & w' & t & Hrun & Htrace & _ & (req & rest & ->) & _).
    exists r, w', req, rest. split; assumption.
Qed.

End PushRuns.

(** *** Concrete runs of the further properties *)

(** A configuration whose secret is a lone surrogate, as [os.getenv]
    yields for a byte that is not UTF-8. *)
Definition surrogate_secret_cfg : config :=
  mkConfig None None None None
           (Some (lit "https://oapi.dingtalk.com/robot/send?access_token=t"))
           (Some [56448%N]) None None.

Definition empty_cfg : config :=
  mkConfig None None None None None None None None.

Lemma push_dingtalk_one_call_per_attempt_witness :
  exists (b : bool) (w' : world) (t : list event),
    push_dingtalk rejecting_env dingtalk_cfg (lit "hi") world0
      = (Ok (PyBool b), w')
    /\ trace w' = trace world0 ++ t
    /\ io_of t =
         IoClock :: IoHttp
         :: flat_map (fun p => [IoSleep p; IoClock; IoHttp]) (sleeps t)
    /\ length (http_requests t) = S (length (sleeps t)).
Proof.
  apply (push_dingtalk_one_call_per_attempt
           rejecting_env dingtalk_cfg (lit "hi") world0
           (lit "testsecret") (TestVectors.ascii_bytes "testsecret"));
    reflexivity.
Defined.

Lemma push_dingtalk_unencodable_secret_witness :
  push_dingtalk refusing_env surrogate_secret_cfg (lit "hi") world0 =
    (Ok (PyBool false),
     mkWorld 0 2 3
             [EvClock; EvLog ERROR (DingTalkException UnicodeEncodeError);
              EvLog INFO (DingTalkRetryIn 2); EvSleep 2;
              EvClock; EvLog ERROR (DingTalkException UnicodeEncodeError);
              EvLog INFO (DingTalkRetryIn 2); EvSleep 2;
              EvClock; EvLog ERROR (DingTalkException UnicodeEncodeError)]).
Proof.
  apply (push_dingtalk_unencodable_secret
           refusing_env surrogate_secret_cfg (lit "hi") world0 [56448%N]);
    reflexivity.
Defined.

Lemma push_calls_without_preflight_witness :
  exists (r : outcome pyval) (w' : world) (req : request)
         (rest : list event),
    push refusing_env empty_cfg (lit "hi") (lit "wxpusher") world0 = (r, w')
    /\ trace w' = trace world0 ++ EvHttp req :: rest.
Proof.
  apply (push_calls_without_preflight
           refusing_env empty_cfg (lit "hi") (lit "wxpusher") world0).
  right. right. reflexivity.
Defined.

(* ================================================================== *)
(** ** Further properties: a DingTalk body without an error code *)

Section DingTalkBodies.
Variable E : env.
Variable cfg : config.
Variable content : pystr.

(** X12. A response that [raise_for_status] accepts but whose body gives
    no [errcode] is a failed attempt, never a success: a body that is
    not JSON is logged as [JSONDecodeError], a JSON value that is not an
    object as [AttributeError] (it has no [get]), and an object in which
    [errcode] is absent or null is logged as rejected, since
    [None == 0] is false.  In each case the attempt falls through to the
    retry, with a pause when attempts remain. *)
Theorem dingtalk_attempt_without_errcode
        (a : nat) (w0 : world) (sign : pystr) (resp : response)
        (Hsign : generate_dingtalk_sign
                   (str_of_int (clock_ms E (n_clock w0)))
                   (DINGTALK_SECRET cfg) = Ok sign)
        (Hresp : http E (n_http w0)
                      (dingtalk_request cfg
                         (str_of_int (clock_ms E (n_clock w0)))
                         sign content) = Resp resp)
        (Hstatus : is_error_status (status_code resp) = false)
        (Hbody : match json_body resp with
                 | Some (PyDict d) => dict_get d (lit "errcode") = PyNone
                 | _ => True
                 end) :
  dingtalk_attempt E cfg content a w0 =
    (Ok Next,
     mkWorld (S (n_http w0))
             (if (a <? 2)%nat then S (n_rand w0) else n_rand w0)
             (S (n_clock w0))
             (trace w0 ++
              [EvClock;
               EvHttp (dingtalk_request cfg
                         (str_of_int (clock_ms E (n_clock w0)))
                         sign content);
               EvLog ERROR
                 (match json_body resp with
                  | None => DingTalkException JSONDecodeError
                  | Some (PyDict _) => DingTalkRejected (text resp)
                  | Some _ => DingTalkException AttributeError
                  end)]
              ++ (if (a <? 2)%nat
                  then [EvLog INFO
                          (DingTalkRetryIn (dingtalk_backoff E (n_rand w0)));
                        EvSleep (dingtalk_backoff E (n_rand w0))]
                  else []))).
Proof.
  rewrite dingtalk_attempt_spec.
  unfold attempt_qualifies, dingtalk_after_failure, dingtalk_failure_events,
    dingtalk_backoff_events, attempt_failure_msg, attempt_calls,
    attempt_request, attempt_sign, attempt_timestamp.
  rewrite Hsign, Hresp. simpl. rewrite Hstatus. simpl.
  destruct (json_body resp) as [[| | | | | | d] |]; simpl;
    try (rewrite Nat.add_1_r; reflexivity).
  rewrite Hbody. simpl. rewrite Nat.add_1_r. reflexivity.
Qed.

End DingTalkBodies.

(** A provider that answers 200 with an empty JSON object. *)
Definition empty_object_200 : response :=
  mkResponse 200 [123; 125]%N (Some (PyDict [])).

Definition empty_object_env : env :=
  mkEnv (fun _ _ => Resp empty_object_200)
        (fun _ => 0%Z) (fun _ => 1700000000000%Z).

Lemma dingtalk_attempt_without_errcode_witness :
  dingtalk_attempt empty_object_env dingtalk_cfg (lit "hi") 0 world0 =
    (Ok Next,
     mkWorld 1 1 1
       [EvClock;
        EvHttp (dingtalk_request dingtalk_cfg (lit "1700000000000")
                  (lit "d043yCasNZ+KC1N0lrVg+Aan0gEIKPvRfzRqMlUUwzk=")
                  (lit "hi"));
        EvLog ERROR (DingTalkRejected [123; 125]%N);
        EvLog INFO (DingTalkRetryIn 2);
        EvSleep 2]).
Proof.
  apply (dingtalk_attempt_without_errcode
           empty_object_env dingtalk_cfg (lit "hi") 0 world0
           (lit "d043yCasNZ+KC1N0lrVg+Aan0gEIKPvRfzRqMlUUwzk=")
           empty_object_200);
    vm_compute; reflexivity.
Defined.
